(** * WeSellYourData: the event ledger of the biometric office system

    A shallow embedding of the three programs of the repository that
    receive, retain and summarise sign-in / sign-out events:

    - [Server]: the Express back end ([website3/server.js], lines 1-224):
      [POST /fingerprint-data], [DELETE /api/data], [GET /api/stats];
    - [Dashboard3]: the dashboard script that polls the device directly
      (second part of [website3/server.js]): [processData],
      [parseTimestamp], [addActiveSession], [removeActiveSession],
      [addActivityEntry], [clearActivity];
    - [Dashboard2]: the dashboard script that polls the server
      (second part of [website2/README.md]): [processEntry],
      [processDataBatch], [clearActivity];
    - [formatDuration] of both dashboards, the Pi status bit of
      [website2/README.md] ([PiStatus]) and the monitoring switches of the
      two dashboards ([Monitor2], [Monitor3]).

    Modelling conventions.  A JavaScript number is an integer-valued
    double, an infinity or NaN (fractions are left out; the claims speak
    of integer timestamps and of counts); a product is rounded as the
    product of doubles is.  A [Date] object is represented by its time
    value.  Objects and arrays are opaque references.  The parts of the
    JavaScript runtime that the programs call but do not define
    (date-string parsing, conversion of strings and objects to numbers and
    of objects to strings, lower-casing, the local calendar) are the
    fields of a [JsRuntime] record that every function takes as a
    parameter; a conversion of an object that raises a TypeError is
    [None].  A function that can raise returns how it ended beside the
    state it left. *)

From stdpp Require Import gmap strings list fin_maps.
From Stdlib Require Import DecimalString.

Local Open Scope Z_scope.

(** ** JavaScript values *)

Inductive Number :=
| Finite (z : Z)
| Infinity (negative : bool)
| NaN.

Inductive JsValue :=
| JUndefined                 (* also: a property that is missing *)
| JNull
| JBool (b : bool)
| JNum (x : Number)
| JStr (s : string)
| JObj (ref : positive).     (* an object or an array, by reference *)

Inductive JsType := TUndefined | TObject | TBoolean | TNumber | TString.

#[global] Instance Number_eq_dec : EqDecision Number.
Proof. solve_decision. Defined.

#[global] Instance JsValue_eq_dec : EqDecision JsValue.
Proof. solve_decision. Defined.

#[global] Instance JsType_eq_dec : EqDecision JsType.
Proof. solve_decision. Defined.

Definition Number_to_sum (x : Number) : Z + (bool + unit) :=
  match x with
  | Finite z => inl z
  | Infinity negative => inr (inl negative)
  | NaN => inr (inr ())
  end.

Definition Number_of_sum (s : Z + (bool + unit)) : Number :=
  match s with
  | inl z => Finite z
  | inr (inl negative) => Infinity negative
  | inr (inr _) => NaN
  end.

#[global] Instance Number_countable : Countable Number.
Proof.
  refine (inj_countable' Number_to_sum Number_of_sum _).
  by intros [].
Defined.

Definition JsValue_to_sum (v : JsValue)
  : bool + (bool + (Number + (string + positive))) :=
  match v with
  | JUndefined => inl false
  | JNull => inl true
  | JBool b => inr (inl b)
  | JNum x => inr (inr (inl x))
  | JStr s => inr (inr (inr (inl s)))
  | JObj r => inr (inr (inr (inr r)))
  end.

Definition JsValue_of_sum (s : bool + (bool + (Number + (string + positive))))
  : JsValue :=
  match s with
  | inl false => JUndefined
  | inl true => JNull
  | inr (inl b) => JBool b
  | inr (inr (inl x)) => JNum x
  | inr (inr (inr (inl s))) => JStr s
  | inr (inr (inr (inr r))) => JObj r
  end.

#[global] Instance JsValue_countable : Countable JsValue.
Proof.
  refine (inj_countable' JsValue_to_sum JsValue_of_sum _).
  by intros [].
Defined.

(** [typeof v] *)
Definition typeof (v : JsValue) : JsType :=
  match v with
  | JUndefined => TUndefined
  | JNull | JObj _ => TObject
  | JBool _ => TBoolean
  | JNum _ => TNumber
  | JStr _ => TString
  end.

(** ToBoolean: what [if (v)], [!v] and [v || w] test. *)
Definition truthy (v : JsValue) : bool :=
  match v with
  | JUndefined | JNull => false
  | JBool b => b
  | JNum (Finite z) => negb (z =? 0)
  | JNum (Infinity _) => true
  | JNum NaN => false
  | JStr s => negb (String.eqb s EmptyString)
  | JObj _ => true
  end.

(** [a === b]: NaN differs from itself, objects compare by reference. *)
Definition strict_eq (a b : JsValue) : bool :=
  match a, b with
  | JNum NaN, _ | _, JNum NaN => false
  | _, _ => bool_decide (a = b)
  end.

(** [a || b] *)
Definition js_or (a b : JsValue) : JsValue := if truthy a then a else b.

(** The double nearest to the integer [z] (ties to the even significand,
    infinity from 2^1024 on): what an arithmetic result [z] is stored as. *)
Definition roundDouble (z : Z) : Number :=
  let a := Z.abs z in
  if a <? 2 ^ 53 then Finite z
  else
    let e := Z.log2 a - 52 in
    let q := Z.shiftr a e in
    let r := a - Z.shiftl q e in
    let half := 2 ^ (e - 1) in
    let q' := if (half <? r) || ((r =? half) && Z.odd q) then q + 1 else q in
    let v := Z.shiftl q' e in
    if 2 ^ 1024 <=? v then Infinity (z <? 0) else Finite (Z.sgn z * v).

(** [x < k], [x > k], [x >= k] for an integer [k], and [x * k] for a
    positive integer [k]; a comparison with NaN is false. *)
Definition num_lt (x : Number) (k : Z) : bool :=
  match x with
  | Finite z => z <? k
  | Infinity negative => negative
  | NaN => false
  end.

Definition num_gt (x : Number) (k : Z) : bool :=
  match x with
  | Finite z => k <? z
  | Infinity negative => negb negative
  | NaN => false
  end.

Definition num_ge (x : Number) (k : Z) : bool :=
  match x with
  | Finite z => k <=? z
  | Infinity negative => negb negative
  | NaN => false
  end.

Definition num_mul (x : Number) (k : Z) : Number :=
  match x with
  | Finite z => roundDouble (z * k)
  | Infinity negative => Infinity negative
  | NaN => NaN
  end.

Definition isNaN (x : Number) : bool :=
  match x with NaN => true | _ => false end.

(** [Math.abs(a - b) < k] for an integer [k] *)
Definition abs_diff_lt (a b : Number) (k : Z) : bool :=
  match a, b with
  | Finite x, Finite y => Z.abs (x - y) <? k
  | _, _ => false
  end.

(** TimeClip: a time value beyond 8.64e15 ms makes an invalid [Date]. *)
Definition TimeClip (x : Number) : Number :=
  match x with
  | Finite z => if Z.abs z <=? 8640000000000000 then Finite z else NaN
  | _ => NaN
  end.

(** The runtime functions the programs rely on. *)
Record JsRuntime := {
  (* [Date.parse(s)]; NaN when [s] does not parse *)
  Date_parse : string → Number;
  (* ToNumber on a string *)
  StringToNumber : string → Number;
  (* ToNumber on an object or array; [None] when it raises *)
  objToNumber : positive → option Number;
  (* ToString on an object or array, as a template literal and the DOM
     apply it; [None] when it raises *)
  objToString : positive → option string;
  (* the time value [new Date(o)] is made with, before TimeClip, for an
     object or array [o]; [None] when it raises *)
  objDate : positive → option Number;
  (* [s.toLowerCase()] *)
  toLowerCase : string → string;
  (* [new Date(d.getFullYear(), d.getMonth(), d.getDate()).getTime()] for
     the date [d] whose time value is given: local midnight of its day *)
  localMidnight : Z → Z
}.

(** ToNumber; [None] when it raises. *)
Definition toNumber (rt : JsRuntime) (v : JsValue) : option Number :=
  match v with
  | JUndefined => Some NaN
  | JNull => Some (Finite 0)
  | JBool b => Some (Finite (if b then 1 else 0))
  | JNum x => Some x
  | JStr s => Some (StringToNumber rt s)
  | JObj r => objToNumber rt r
  end.

(** [new Date(v).getTime()]; [None] when the constructor raises. *)
Definition newDate (rt : JsRuntime) (v : JsValue) : option Number :=
  match v with
  | JStr s => Some (TimeClip (Date_parse rt s))
  | JObj r => TimeClip <$> objDate rt r
  | _ => TimeClip <$> toNumber rt v
  end.

(** [v >= k] for an integer [k]; [None] when the conversion of [v]
    raises. *)
Definition js_ge (rt : JsRuntime) (v : JsValue) (k : Z) : option bool :=
  (λ x, num_ge x k) <$> toNumber rt v.

(** The conversion of [v] to a string, in a template literal or by the
    DOM, does not raise. *)
Definition printable (rt : JsRuntime) (v : JsValue) : bool :=
  match v with
  | JObj r => bool_decide (is_Some (objToString rt r))
  | _ => true
  end.

(** [xs.slice(0, n)] when [xs.length > n], else [xs]: the trim both
    the server and the dashboards apply after [unshift]. *)
Definition trim {A} (n : nat) (xs : list A) : list A :=
  if (n <? length xs)%nat then firstn n xs else xs.

(** [xs.filter((x, i) => p(i, x))] for a test that can raise: [None] when
    a call of the test raises. *)
Fixpoint filterM {A} (p : nat → A → option bool) (i : nat) (xs : list A)
    : option (list A) :=
  match xs with
  | [] => Some []
  | x :: rest =>
      match p i x with
      | None => None
      | Some keep =>
          match filterM p (S i) rest with
          | None => None
          | Some kept => Some (if keep then x :: kept else kept)
          end
      end
  end.

(** The double quote character. *)
Definition dquote : string :=
  String (Ascii.Ascii false true false false false true false false)
         EmptyString.

(** How a call of a function that can raise ends. *)
Inductive Outcome :=
| Processed                   (* ran to its end *)
| Ignored                     (* returned early *)
| Threw.                      (* raised a TypeError *)

(** An active session: the value kept in the [activeSessions] map. *)
Record Session := {
  session_name : JsValue;
  startTime : Number          (* a [Date] *)
}.

(** The sessions [activeSessions()] lists: the values of the map. *)
Definition sessions (m : gmap JsValue Session) : list Session :=
  (map_to_list m).*2.

(** [updateUI] does not raise: every name it writes to the page, those of
    the active sessions and those of the activity feed, converts to a
    string. *)
Definition updateUI_ok (rt : JsRuntime) (m : gmap JsValue Session)
    (names : list JsValue) : bool :=
  forallb (λ session, printable rt (session_name session)) (sessions m)
  && forallb (printable rt) names.

(** ** The server ([website3/server.js], lines 1-224) *)

Module Server.

(** [req.body] of [POST /fingerprint-data]; a missing field is [JUndefined]. *)
Record Raw := {
  data_name : JsValue;
  data_action : JsValue;
  data_timestamp : JsValue
}.

(** The standardized entry the handler stores. *)
Record Entry := {
  entry_name : JsValue;
  entry_action : JsValue;
  entry_timestamp : JsValue;
  receivedAt : Z
}.

#[global] Instance Entry_eq_dec : EqDecision Entry.
Proof. solve_decision. Defined.

(** What the handler sends back. *)
Inductive Response :=
| Ok200 (entry : Entry)          (* success: true, entry *)
| BadRequest400 (error : string)
| ServerError500.                (* from the [catch] of the handler *)

(** [let latestData = []] *)
Definition latestData_init : list Entry := [].

Definition MAX_HISTORY : nat := 100.

(** [['in', 'out'].includes(v)] *)
Definition includes_in_out (v : JsValue) : bool :=
  strict_eq (JStr "in") v || strict_eq (JStr "out") v.

(** Lines 51-58: the timestamp normalization. *)
Definition normalize (rt : JsRuntime) (timestamp : JsValue) : JsValue :=
  match timestamp with
  | JNum x =>
      if num_lt x 10000000000 then JNum (num_mul x 1000) else timestamp
  | JStr s => JNum (TimeClip (Date_parse rt s))
  | _ => timestamp
  end.

(** The text of the second validation error. *)
Definition invalid_action : string :=
  "Invalid action. Must be " +:+ dquote +:+ "in" +:+ dquote +:+ " or "
  +:+ dquote +:+ "out" +:+ dquote.

(** [app.post('/fingerprint-data', ...)]: the new store and the response.
    The log line that follows the [unshift] and the trim converts the name
    to a string; when that raises, the handler answers 500 with the entry
    already stored. *)
Definition post_fingerprint_data (rt : JsRuntime) (now : Z) (data : Raw)
    (latestData : list Entry) : list Entry * Response :=
  if negb (truthy (data_name data)) || negb (truthy (data_action data))
     || negb (truthy (data_timestamp data))
  then (latestData,
        BadRequest400 "Invalid data format. Required: name, action, timestamp")
  else if negb (includes_in_out (data_action data))
  then (latestData, BadRequest400 invalid_action)
  else
    let entry := {| entry_name := data_name data;
                    entry_action := data_action data;
                    entry_timestamp := normalize rt (data_timestamp data);
                    receivedAt := now |} in
    let latestData' := trim MAX_HISTORY (entry :: latestData) in
    if printable rt (entry_name entry)
    then (latestData', Ok200 entry)
    else (latestData', ServerError500).

(** [app.get('/api/data', ...)]: count and data. *)
Definition get_api_data (latestData : list Entry) : nat * list Entry :=
  (length latestData, latestData).

(** [app.get('/api/data/latest', ...)]: [latestData[0] || null]. *)
Definition get_api_data_latest (latestData : list Entry) : option Entry :=
  head latestData.

(** [app.delete('/api/data', ...)]: the new store and [previousCount]. *)
Definition delete_api_data (latestData : list Entry) : list Entry * nat :=
  ([], length latestData).

Record Stats := {
  totalEntries : nat;
  signInsToday : nat;
  signOutsToday : nat;
  entriesLast24h : nat
}.

(** [app.get('/api/stats', ...)].  [now] is the reading of the clock
    [new Date()] makes, [later i] the one [Date.now()] makes when the last
    filter tests the entry of index [i].  A comparison of a retained
    timestamp that raises makes the handler answer 500: [None]. *)
Definition get_api_stats (rt : JsRuntime) (now : Z) (later : nat → Z)
    (latestData : list Entry) : option Stats :=
  let todayStart := localMidnight rt now in
  match filterM (λ _ entry, js_ge rt (entry_timestamp entry) todayStart)
                0 latestData with
  | None => None
  | Some todayEntries =>
      match filterM (λ i entry,
                       js_ge rt (entry_timestamp entry)
                             (later i - 24 * 60 * 60 * 1000))
                    0 latestData with
      | None => None
      | Some last24h =>
          Some {| totalEntries := length latestData;
                  signInsToday :=
                    length (List.filter
                              (λ entry,
                                 strict_eq (entry_action entry) (JStr "in"))
                              todayEntries);
                  signOutsToday :=
                    length (List.filter
                              (λ entry,
                                 strict_eq (entry_action entry) (JStr "out"))
                              todayEntries);
                  entriesLast24h := length last24h |}
      end
  end.

(** A run of the server: the requests of a sequence of [POST]s, each with
    the instant it is handled at, from a given store. *)
Fixpoint run (rt : JsRuntime) (reqs : list (Z * Raw)) (latestData : list Entry)
    : list Entry :=
  match reqs with
  | [] => latestData
  | (now, data) :: rest =>
      run rt rest (post_fingerprint_data rt now data latestData).1
  end.

(** The entry a request is standardized to. *)
Definition entry_of (rt : JsRuntime) (req : Z * Raw) : Entry :=
  {| entry_name := data_name req.2;
     entry_action := data_action req.2;
     entry_timestamp := normalize rt (data_timestamp req.2);
     receivedAt := req.1 |}.

(** The request passes both validation tests of the handler. *)
Definition accepted (data : Raw) : bool :=
  truthy (data_name data) && truthy (data_action data)
  && truthy (data_timestamp data) && includes_in_out (data_action data).

End Server.

(** ** The device dashboard (second part of [website3/server.js]) *)

Module Dashboard3.

(** The data fetched from the device. *)
Record Raw := {
  data_name : JsValue;
  data_action : JsValue;
  data_timestamp : JsValue;
  data_time : JsValue
}.

Record Entry := {
  entry_name : JsValue;
  entry_action : string;
  entry_timestamp : Number    (* a [Date] *)
}.

Record Statistics := {
  totalEntries : nat;
  signInsToday : nat;
  signOutsToday : nat
}.

(** The fields of [STATE] that the data path reads or writes. *)
Record STATE := {
  activeSessions : gmap JsValue Session;
  activityHistory : list Entry;
  statistics : Statistics
}.

Definition STATE_init : STATE :=
  {| activeSessions := ∅;
     activityHistory := [];
     statistics := {| totalEntries := 0; signInsToday := 0;
                      signOutsToday := 0 |} |}.

(** The last two lines of [parseTimestamp]: the date made of the value,
    or the current instant when that date is invalid. *)
Definition dateOrNow (rt : JsRuntime) (now : Z) (timestamp : JsValue)
    : option Number :=
  (λ date, if isNaN date then Finite now else date) <$> newDate rt timestamp.

(** [parseTimestamp]; [None] when [new Date(timestamp)] raises. *)
Definition parseTimestamp (rt : JsRuntime) (now : Z) (timestamp : JsValue)
    : option Number :=
  if negb (truthy timestamp) then Some (Finite now)
  else
    match timestamp with
    | JNum x =>
        if num_gt x 1000000000 && num_lt x 10000000000
        then newDate rt (JNum (num_mul x 1000))
        else if num_gt x 1000000000000
        then newDate rt timestamp
        else dateOrNow rt now timestamp
    | _ => dateOrNow rt now timestamp
    end.

Definition addActiveSession (entry : Entry) (st : STATE) : STATE :=
  {| activeSessions :=
       <[entry_name entry :=
           {| session_name := entry_name entry;
              startTime := entry_timestamp entry |}]> (activeSessions st);
     activityHistory := activityHistory st;
     statistics := statistics st |}.

Definition removeActiveSession (name : JsValue) (st : STATE) : STATE :=
  {| activeSessions := delete name (activeSessions st);
     activityHistory := activityHistory st;
     statistics := statistics st |}.

Definition addActivityEntry (entry : Entry) (st : STATE) : STATE :=
  {| activeSessions := activeSessions st;
     activityHistory := trim 50 (entry :: activityHistory st);
     statistics := statistics st |}.

Definition bump (f : Statistics → Statistics) (st : STATE) : STATE :=
  {| activeSessions := activeSessions st;
     activityHistory := activityHistory st;
     statistics := f (statistics st) |}.

Definition incr_totalEntries (s : Statistics) : Statistics :=
  {| totalEntries := S (totalEntries s); signInsToday := signInsToday s;
     signOutsToday := signOutsToday s |}.

Definition incr_signInsToday (s : Statistics) : Statistics :=
  {| totalEntries := totalEntries s; signInsToday := S (signInsToday s);
     signOutsToday := signOutsToday s |}.

Definition incr_signOutsToday (s : Statistics) : Statistics :=
  {| totalEntries := totalEntries s; signInsToday := signInsToday s;
     signOutsToday := S (signOutsToday s) |}.

(** The writes of [processData] for the entry it has built: the counters,
    the active sessions, the activity history. *)
Definition record (entry : Entry) (st : STATE) : STATE :=
  let st1 := bump incr_totalEntries st in
  let st2 :=
    if String.eqb (entry_action entry) "in"
    then addActiveSession entry (bump incr_signInsToday st1)
    else if String.eqb (entry_action entry) "out"
    then removeActiveSession (entry_name entry) (bump incr_signOutsToday st1)
    else st1 in
  addActivityEntry entry st2.

(** [updateUI()] runs to its end in the state [st]. *)
Definition updateUI (rt : JsRuntime) (st : STATE) : bool :=
  updateUI_ok rt (activeSessions st) (map entry_name (activityHistory st)).

(** [processData]: the state it leaves and how it ends.  It raises before
    any write when the action has no [toLowerCase] (it is not a string) or
    [parseTimestamp] raises, and after its writes when [updateUI] does. *)
Definition processData (rt : JsRuntime) (now : Z) (data : Raw) (st : STATE)
    : STATE * Outcome :=
  if negb (truthy (data_name data)) || negb (truthy (data_action data))
  then (st, Ignored)
  else
    match data_action data with
    | JStr a =>
        match parseTimestamp rt now
                (js_or (data_timestamp data) (data_time data)) with
        | Some timestamp =>
            let entry := {| entry_name := data_name data;
                            entry_action := toLowerCase rt a;
                            entry_timestamp := timestamp |} in
            let st' := record entry st in
            (st', if updateUI rt st' then Processed else Threw)
        | None => (st, Threw)
        end
    | _ => (st, Threw)
    end.

Definition clearActivity (st : STATE) : STATE :=
  {| activeSessions := activeSessions st;
     activityHistory := [];
     statistics := statistics st |}.

(** The data of a sequence of fetches, each with the instant it is
    processed at; a call that raises ends its fetch only. *)
Fixpoint run (rt : JsRuntime) (inputs : list (Z * Raw)) (st : STATE) : STATE :=
  match inputs with
  | [] => st
  | (now, data) :: rest => run rt rest (processData rt now data st).1
  end.

End Dashboard3.

(** ** The server dashboard (second part of [website2/README.md]) *)

Module Dashboard2.

(** One element of the [data] array of [GET /api/data]. *)
Record Raw := {
  data_name : JsValue;
  data_action : JsValue;
  data_timestamp : JsValue
}.

(** The standardized entry; its [id] string, never read, is left out, but
    not the conversions that building it makes. *)
Record Entry := {
  entry_name : JsValue;
  entry_action : JsValue;
  entry_timestamp : Number    (* a [Date] *)
}.

(** The fields of [STATE] that the data path reads or writes. *)
Record STATE := {
  activeSessions : gmap JsValue Session;
  activityHistory : list Entry
}.

Definition STATE_init : STATE :=
  {| activeSessions := ∅; activityHistory := [] |}.

(** Lines 607-614: the conversion of the timestamp to a [Date]. *)
Definition convert (rt : JsRuntime) (now : Z) (timestamp : JsValue) : Number :=
  match timestamp with
  | JNum x => TimeClip x
  | JStr s => TimeClip (Date_parse rt s)
  | _ => Finite now
  end.

(** Lines 617-621: the test [STATE.activityHistory.some(...)]. *)
Definition isDuplicate (data : Raw) (timestamp : Number)
    (activityHistory : list Entry) : bool :=
  existsb (λ entry,
             strict_eq (entry_name entry) (data_name data)
             && strict_eq (entry_action entry) (data_action data)
             && abs_diff_lt (entry_timestamp entry) timestamp 1000)
          activityHistory.

Definition entry_of (rt : JsRuntime) (now : Z) (data : Raw) : Entry :=
  {| entry_name := data_name data;
     entry_action := data_action data;
     entry_timestamp := convert rt now (data_timestamp data) |}.

(** [processEntry]: the state it leaves and how it ends.  The template
    literal of the [id] converts the name and the action to strings before
    any write; when that raises, so does [processEntry]. *)
Definition processEntry (rt : JsRuntime) (now : Z) (data : Raw) (st : STATE)
    : STATE * Outcome :=
  if negb (truthy (data_name data)) || negb (truthy (data_action data))
  then (st, Ignored)
  else
    let timestamp := convert rt now (data_timestamp data) in
    if isDuplicate data timestamp (activityHistory st)
    then (st, Ignored)
    else if negb (printable rt (data_name data)
                  && printable rt (data_action data))
    then (st, Threw)
    else
      let entry := {| entry_name := data_name data;
                      entry_action := data_action data;
                      entry_timestamp := timestamp |} in
      let sessions :=
        if strict_eq (entry_action entry) (JStr "in")
        then <[entry_name entry :=
                 {| session_name := entry_name entry;
                    startTime := entry_timestamp entry |}]> (activeSessions st)
        else if strict_eq (entry_action entry) (JStr "out")
        then delete (entry_name entry) (activeSessions st)
        else activeSessions st in
      ({| activeSessions := sessions;
          activityHistory := trim 50 (entry :: activityHistory st) |},
       Processed).

(** [updateUI()] runs to its end in the state [st]. *)
Definition updateUI (rt : JsRuntime) (st : STATE) : bool :=
  updateUI_ok rt (activeSessions st) (map entry_name (activityHistory st)).

(** [processDataBatch]: the entries of one poll, each with the instant it
    is processed at.  An entry that raises ends the [forEach]; the entries
    after it are not processed, and [updateUI] is not called. *)
Fixpoint processDataBatch (rt : JsRuntime) (dataArray : list (Z * Raw))
    (st : STATE) : STATE * Outcome :=
  match dataArray with
  | [] => (st, if updateUI rt st then Processed else Threw)
  | (now, data) :: rest =>
      match processEntry rt now data st with
      | (st', Threw) => (st', Threw)
      | (st', _) => processDataBatch rt rest st'
      end
  end.

(** [clearActivity]; [confirmed] is the answer to its [confirm] dialog. *)
Definition clearActivity (confirmed : bool) (st : STATE) : STATE :=
  if negb confirmed then st
  else {| activeSessions := ∅; activityHistory := [] |}.

(** The polls of a session of the dashboard, one after the other; a poll
    that raises is caught by [fetchData] and ends there. *)
Fixpoint run (rt : JsRuntime) (polls : list (list (Z * Raw))) (st : STATE)
    : STATE :=
  match polls with
  | [] => st
  | dataArray :: rest => run rt rest (processDataBatch rt dataArray st).1
  end.

(** The entry passes the validation and is not a duplicate in [st]. *)
Definition fresh (rt : JsRuntime) (now : Z) (data : Raw) (st : STATE) : bool :=
  truthy (data_name data) && truthy (data_action data)
  && negb (isDuplicate data (convert rt now (data_timestamp data))
                       (activityHistory st)).

(** The entry is stored: it is fresh, and its name and action convert to
    strings. *)
Definition stores (rt : JsRuntime) (now : Z) (data : Raw) (st : STATE) : bool :=
  fresh rt now data st
  && printable rt (data_name data) && printable rt (data_action data).

End Dashboard2.

(** ** The time display, the Pi status bit and the monitoring switch *)

(** [String(z)] for an integer [z] below 1e21 in magnitude. *)
Definition showZ (z : Z) : string := NilZero.string_of_int (Z.to_int z).

(** [formatDuration], the same function in both dashboards.  For a whole
    number of milliseconds below 2^53 in magnitude, [Math.floor] of the
    quotient of the doubles is [Z.div]; [%] is [Z.rem]. *)
Definition formatDuration (milliseconds : Number) : string :=
  match milliseconds with
  | NaN => "NaNs"
  | Infinity false => "Infinityh NaNm"
  | Infinity true => "-Infinitys"
  | Finite ms =>
      let seconds := ms / 1000 in
      let minutes := seconds / 60 in
      let hours := minutes / 60 in
      if 0 <? hours
      then showZ hours ++ "h " ++ showZ (Z.rem minutes 60) ++ "m"
      else if 0 <? minutes
      then showZ minutes ++ "m " ++ showZ (Z.rem seconds 60) ++ "s"
      else showZ seconds ++ "s"
  end.

(** The single bit shared with the Raspberry Pi ([website2/README.md],
    lines 308-324) and its display (lines 866-930). *)
Module PiStatus.

Inductive Response :=
| Ok200 (status : JsValue)       (* ok: true, status *)
| BadRequest400 (error : string).

(** [let piStatus = 0] *)
Definition piStatus_init : JsValue := JNum (Finite 0).

(** [status === 0 || status === 1] *)
Definition is_bit (status : JsValue) : bool :=
  strict_eq status (JNum (Finite 0)) || strict_eq status (JNum (Finite 1)).

(** [app.get('/pi-status', ...)] *)
Definition get_pi_status (piStatus : JsValue) : JsValue := piStatus.

(** [app.post('/pi-status', ...)]: the new bit and the response. *)
Definition post_pi_status (status : JsValue) (piStatus : JsValue)
    : JsValue * Response :=
  if is_bit status then (status, Ok200 status)
  else (piStatus, BadRequest400 "status must be 0 or 1").

(** The bodies of a sequence of [POST]s, handled one after the other. *)
Fixpoint run (bodies : list JsValue) (piStatus : JsValue) : JsValue :=
  match bodies with
  | [] => piStatus
  | status :: rest => run rest (post_pi_status status piStatus).1
  end.

(** What [JSON.stringify] and [JSON.parse] make of a number. *)
Definition viaJSON (value : Number) : JsValue :=
  match value with Finite z => JNum (Finite z) | _ => JNull end.

(** What [updatePiStatusDisplay] writes to the page. *)
Record Display := {
  textContent : string;
  color : string
}.

Definition updatePiStatusDisplay (status : JsValue) : Display :=
  if is_bit status
  then {| textContent :=           (* [String(status)], a number here *)
            match status with JNum (Finite z) => showZ z | _ => "NaN" end;
          color := if strict_eq status (JNum (Finite 1))
                   then "var(--color-success)"
                   else "var(--color-text-secondary)" |}
  else {| textContent := "Unknown"; color := "var(--color-text-muted)" |}.

(** [fetchPiStatus]; [reachable] tells whether the request succeeds. *)
Definition fetchPiStatus (reachable : bool) (piStatus : JsValue) : Display :=
  if reachable then updatePiStatusDisplay (get_pi_status piStatus)
  else updatePiStatusDisplay JNull.

(** [setPiStatus(value)]: the server's bit and the display afterwards. *)
Definition setPiStatus (value : Number) (reachable : bool)
    (piStatus : JsValue) (display : Display) : JsValue * Display :=
  if reachable
  then match post_pi_status (viaJSON value) piStatus with
       | (piStatus', Ok200 status) => (piStatus', updatePiStatusDisplay status)
       | (piStatus', BadRequest400 _) => (piStatus', display)
       end
  else (piStatus, display).

End PiStatus.

(** The monitoring switch of the server dashboard ([toggleMonitoring],
    [startMonitoring], [stopMonitoring], and the delayed starts that [init]
    and [saveConfiguration] schedule with [setTimeout]).  [intervals] is
    the set of the intervals that were set and not cleared. *)
Module Monitor2.

Record Monitor := {
  isMonitoring : bool;
  updateInterval : option positive;
  intervals : gset positive;
  nextTimer : positive;
  pendingStarts : nat
}.

(** The state [init] leaves: one start is scheduled. *)
Definition Monitor_init : Monitor :=
  {| isMonitoring := false; updateInterval := None; intervals := ∅;
     nextTimer := 1%positive; pendingStarts := 1 |}.

Definition startMonitoring (m : Monitor) : Monitor :=
  {| isMonitoring := true;
     updateInterval := Some (nextTimer m);
     intervals := {[nextTimer m]} ∪ intervals m;
     nextTimer := Pos.succ (nextTimer m);
     pendingStarts := pendingStarts m |}.

Definition stopMonitoring (m : Monitor) : Monitor :=
  {| isMonitoring := false;
     updateInterval := None;
     intervals := match updateInterval m with
                  | Some timer => intervals m ∖ {[timer]}
                  | None => intervals m
                  end;
     nextTimer := nextTimer m;
     pendingStarts := pendingStarts m |}.

Definition toggleMonitoring (m : Monitor) : Monitor :=
  if isMonitoring m then stopMonitoring m else startMonitoring m.

(** The part of [saveConfiguration] that restarts the monitoring, once
    the configuration is stored. *)
Definition saveConfiguration (m : Monitor) : Monitor :=
  if isMonitoring m
  then let m' := stopMonitoring m in
       {| isMonitoring := isMonitoring m';
          updateInterval := updateInterval m';
          intervals := intervals m';
          nextTimer := nextTimer m';
          pendingStarts := S (pendingStarts m') |}
  else m.

(** A scheduled start fires. *)
Definition timeout (m : Monitor) : Monitor :=
  match pendingStarts m with
  | O => m
  | S n => startMonitoring
             {| isMonitoring := isMonitoring m;
                updateInterval := updateInterval m;
                intervals := intervals m;
                nextTimer := nextTimer m;
                pendingStarts := n |}
  end.

Inductive Event := Click | Save | Timeout.

Definition step (m : Monitor) (e : Event) : Monitor :=
  match e with
  | Click => toggleMonitoring m
  | Save => saveConfiguration m
  | Timeout => timeout m
  end.

Definition run (events : list Event) (m : Monitor) : Monitor :=
  fold_left step events m.

End Monitor2.

(** The monitoring switch of the device dashboard: [startMonitoring]
    refuses to start without a device address, nothing starts it but the
    button, and [saveConfiguration] stores the trimmed address given (an
    address loaded at start-up is a first save). *)
Module Monitor3.

Record Monitor := {
  deviceIP : string;
  isMonitoring : bool;
  updateInterval : option positive;
  intervals : gset positive;
  nextTimer : positive
}.

Definition Monitor_init : Monitor :=
  {| deviceIP := EmptyString; isMonitoring := false; updateInterval := None;
     intervals := ∅; nextTimer := 1%positive |}.

Definition startMonitoring (m : Monitor) : Monitor :=
  if String.eqb (deviceIP m) EmptyString then m
  else {| deviceIP := deviceIP m;
          isMonitoring := true;
          updateInterval := Some (nextTimer m);
          intervals := {[nextTimer m]} ∪ intervals m;
          nextTimer := Pos.succ (nextTimer m) |}.

Definition stopMonitoring (m : Monitor) : Monitor :=
  {| deviceIP := deviceIP m;
     isMonitoring := false;
     updateInterval := None;
     intervals := match updateInterval m with
                  | Some timer => intervals m ∖ {[timer]}
                  | None => intervals m
                  end;
     nextTimer := nextTimer m |}.

Definition toggleMonitoring (m : Monitor) : Monitor :=
  if isMonitoring m then stopMonitoring m else startMonitoring m.

Definition saveConfiguration (trimmed : string) (m : Monitor) : Monitor :=
  {| deviceIP := trimmed; isMonitoring := isMonitoring m;
     updateInterval := updateInterval m; intervals := intervals m;
     nextTimer := nextTimer m |}.

Inductive Event := Click | Save (trimmed : string).

Definition step (m : Monitor) (e : Event) : Monitor :=
  match e with
  | Click => toggleMonitoring m
  | Save trimmed => saveConfiguration trimmed m
  end.

Definition run (events : list Event) (m : Monitor) : Monitor :=
  fold_left step events m.

End Monitor3.

(** ** The statistics and the duplicate test as the specification words them *)

Module Spec.

(** [t] lies in the local calendar day of [asOf], midnight to midnight. *)
Definition inDayOf (rt : JsRuntime) (asOf t : Z) : bool :=
  localMidnight rt t =? localMidnight rt asOf.

(** [t] lies in the 24 hours that end at [asOf]. *)
Definition inLast24h (asOf t : Z) : bool :=
  (asOf - 24 * 60 * 60 * 1000 <=? t) && (t <=? asOf).

(** The instant an entry occurred at, when its timestamp is one. *)
Definition occurredAt (entry : Server.Entry) : option Z :=
  match Server.entry_timestamp entry with
  | JNum (Finite t) => Some t
  | _ => None
  end.

Definition occurred (P : Z → bool) (entry : Server.Entry) : bool :=
  match occurredAt entry with Some t => P t | None => false end.

Definition hasAction (a : string) (entry : Server.Entry) : bool :=
  bool_decide (Server.entry_action entry = JStr a).

(** [statistics(asOf)] of section 4.2 of the specification. *)
Definition statistics (rt : JsRuntime) (asOf : Z)
    (history : list Server.Entry) : Server.Stats :=
  {| Server.totalEntries := length history;
     Server.signInsToday :=
       length (List.filter
                 (λ e, occurred (inDayOf rt asOf) e && hasAction "in" e)
                 history);
     Server.signOutsToday :=
       length (List.filter
                 (λ e, occurred (inDayOf rt asOf) e && hasAction "out" e)
                 history);
     Server.entriesLast24h :=
       length (List.filter (occurred (inLast24h asOf)) history) |}.

(** No retained entry is dated after [asOf]: every timestamp is a number,
    and an instant at or before [asOf] when it is one. *)
Definition datedBy (asOf : Z) (entry : Server.Entry) : bool :=
  match Server.entry_timestamp entry with
  | JNum (Finite t) => t <=? asOf
  | JNum (Infinity negative) => negative
  | JNum NaN => true
  | _ => false
  end.

(** What a local calendar satisfies: midnight is not after the instant,
    later instants have later (or the same) midnights, and a midnight is
    the midnight of its own day. *)
Record Calendar (rt : JsRuntime) : Prop := {
  midnight_le : ∀ t, localMidnight rt t ≤ t;
  midnight_mono : ∀ s t, s ≤ t → localMidnight rt s ≤ localMidnight rt t;
  midnight_idem : ∀ t, localMidnight rt (localMidnight rt t) = localMidnight rt t
}.

(** The condition of the deduplication of section 4.2: the history holds
    an event of the same name and action within [tolerance] ms of [t]. *)
Definition duplicateOf (name action : JsValue) (t tolerance : Z)
    (history : list (JsValue * JsValue * Number)) : Prop :=
  ∃ t0, (name, action, Finite t0) ∈ history ∧ Z.abs (t0 - t) < tolerance.

End Spec.

(** ** Observations on the states *)

(** The fields of the entries a history holds, for [Spec.duplicateOf]. *)
Definition Server_events (history : list Server.Entry)
    : list (JsValue * JsValue * Number) :=
  map (λ e, (Server.entry_name e, Server.entry_action e,
             match Server.entry_timestamp e with JNum x => x | _ => NaN end))
      history.

Definition Dashboard2_events (history : list Dashboard2.Entry)
    : list (JsValue * JsValue * Number) :=
  map (λ e, (Dashboard2.entry_name e, Dashboard2.entry_action e,
             Dashboard2.entry_timestamp e)) history.

(** Every input of a poll of [Dashboard2] is stored when it is processed:
    valid, no duplicate, and with a name and an action that convert to
    strings. *)
Fixpoint Dashboard2_all_stored (rt : JsRuntime)
    (inputs : list (Z * Dashboard2.Raw)) (st : Dashboard2.STATE) : bool :=
  match inputs with
  | [] => true
  | (now, data) :: rest =>
      Dashboard2.stores rt now data st
      && Dashboard2_all_stored rt rest
           (Dashboard2.processEntry rt now data st).1
  end.


(** A retained timestamp whose comparison with a number does not raise. *)
Definition comparable (rt : JsRuntime) (entry : Server.Entry) : bool :=
  bool_decide (is_Some (toNumber rt (Server.entry_timestamp entry))).

(** The device dashboard gets to the writes of [processData] for the
    input: the name is truthy, the action a non-empty string, and
    [parseTimestamp] does not raise. *)
Definition Dashboard3_accepts (rt : JsRuntime) (input : Z * Dashboard3.Raw)
    : bool :=
  truthy (Dashboard3.data_name input.2)
  && match Dashboard3.data_action input.2 with
     | JStr a => negb (String.eqb a EmptyString)
     | _ => false
     end
  && bool_decide
       (is_Some (Dashboard3.parseTimestamp rt input.1
                   (js_or (Dashboard3.data_timestamp input.2)
                          (Dashboard3.data_time input.2)))).

(** The entry the device dashboard makes of an accepted input. *)
Definition Dashboard3_entry (rt : JsRuntime) (input : Z * Dashboard3.Raw)
    : Dashboard3.Entry :=
  {| Dashboard3.entry_name := Dashboard3.data_name input.2;
     Dashboard3.entry_action :=
       toLowerCase rt
         match Dashboard3.data_action input.2 with
         | JStr a => a
         | _ => EmptyString
         end;
     Dashboard3.entry_timestamp :=
       default NaN (Dashboard3.parseTimestamp rt input.1
                      (js_or (Dashboard3.data_timestamp input.2)
                             (Dashboard3.data_time input.2))) |}.

(** The server dashboard's validation. *)
Definition Dashboard2_valid (data : Dashboard2.Raw) : bool :=
  truthy (Dashboard2.data_name data) && truthy (Dashboard2.data_action data).

(** The test of [isDuplicate] between a retained entry and a later one. *)
Definition clash (retained later : Dashboard2.Entry) : bool :=
  strict_eq (Dashboard2.entry_name retained) (Dashboard2.entry_name later)
  && strict_eq (Dashboard2.entry_action retained)
               (Dashboard2.entry_action later)
  && abs_diff_lt (Dashboard2.entry_timestamp retained)
                 (Dashboard2.entry_timestamp later) 1000.

(** No entry of the history clashes with an older one. *)
Fixpoint clashFree (history : list Dashboard2.Entry) : bool :=
  match history with
  | [] => true
  | later :: older =>
      negb (existsb (λ retained, clash retained later) older)
      && clashFree older
  end.

(** The timestamp of the data is a number or a string that makes a valid
    date: its conversion does not read the clock. *)
Definition timed (rt : JsRuntime) (data : Dashboard2.Raw) : bool :=
  match Dashboard2.data_timestamp data with
  | JNum _ | JStr _ =>
      negb (isNaN (Dashboard2.convert rt 0 (Dashboard2.data_timestamp data)))
  | _ => false
  end.

(** The data is a non-entry or a duplicate in the history: processing it
    changes nothing. *)
Definition settled (rt : JsRuntime) (data : Dashboard2.Raw)
    (history : list Dashboard2.Entry) : bool :=
  negb (Dashboard2_valid data)
  || Dashboard2.isDuplicate data
       (Dashboard2.convert rt 0 (Dashboard2.data_timestamp data)) history.

(** The switch and the timers agree: monitoring is on exactly when one
    interval is set, which is the one [updateInterval] names. *)
Definition consistent (isMonitoring : bool) (updateInterval : option positive)
    (intervals : gset positive) : Prop :=
  match updateInterval with
  | Some timer => isMonitoring = true ∧ intervals = {[timer]}
  | None => isMonitoring = false ∧ intervals = ∅
  end.

(** Timer identifiers are handed out in increasing order. *)
Definition timersBelow (m : Monitor2.Monitor) : Prop :=
  (∀ timer, timer ∈ Monitor2.intervals m → (timer < Monitor2.nextTimer m)%positive)
  ∧ (∀ timer, Monitor2.updateInterval m = Some timer →
              (timer < Monitor2.nextTimer m)%positive).

(** A store the server can be in: every entry passed the validation. *)
Definition stored (entry : Server.Entry) : bool :=
  truthy (Server.entry_name entry)
  && Server.includes_in_out (Server.entry_action entry)
  && negb (bool_decide (typeof (Server.entry_timestamp entry) = TString)).

(** ** A runtime for the examples *)

(** [c.toLowerCase()] on the ASCII letters. *)
Definition ascii_toLowerCase (c : Ascii.ascii) : Ascii.ascii :=
  let n := Ascii.N_of_ascii c in
  if ((65 <=? n) && (n <=? 90))%N then Ascii.ascii_of_N (n + 32) else c.

Fixpoint asciiLowerCase (s : string) : string :=
  match s with
  | EmptyString => EmptyString
  | String c rest => String (ascii_toLowerCase c) (asciiLowerCase rest)
  end.

(** The clock is in UTC; the date string it parses is the epoch; strings
    are lower-cased as ASCII strings are.  The object of reference 1 is
    one that no conversion accepts (such as one whose [toString] and
    [valueOf] are numbers); the other objects convert as plain objects
    do. *)
Definition utcMidnight (t : Z) : Z := t - t mod 86400000.

Definition utcRuntime : JsRuntime :=
  {| Date_parse := λ s, if String.eqb s "1970-01-01T00:00:00.000Z"
                        then Finite 0 else NaN;
     StringToNumber := λ _, NaN;
     objToNumber := λ r, if (r =? 1)%positive then None else Some NaN;
     objToString := λ r, if (r =? 1)%positive then None
                         else Some "[object Object]";
     objDate := λ r, if (r =? 1)%positive then None else Some NaN;
     toLowerCase := asciiLowerCase;
     localMidnight := utcMidnight |}.

(** ** Sample data *)

(** A device that reports a sign-in of the same person every second. *)
Definition everySecond (n : nat) : list (Z * Server.Raw) :=
  map (λ i, (1710000000500 + 1000 * Z.of_nat i,
             {| Server.data_name := JStr "Alice";
                Server.data_action := JStr "in";
                Server.data_timestamp :=
                  JNum (Finite (1710000000 + Z.of_nat i)) |}))
      (seq 0 n).

(** The same events as the dashboard fetches them. *)
Definition everySecondFetched (n : nat) : list (Z * Dashboard2.Raw) :=
  map (λ i, (1710000000900 + 1000 * Z.of_nat i,
             {| Dashboard2.data_name := JStr "Alice";
                Dashboard2.data_action := JStr "in";
                Dashboard2.data_timestamp :=
                  JNum (Finite (1710000000000 + 1000 * Z.of_nat i)) |}))
      (seq 0 n).

(** Alice's sign-in as the device posts it, and the store once it is in. *)
Definition aliceIn : Server.Raw :=
  {| Server.data_name := JStr "Alice";
     Server.data_action := JStr "in";
     Server.data_timestamp := JNum (Finite 1710000000) |}.

Definition aliceInStored : list Server.Entry :=
  (Server.post_fingerprint_data utcRuntime 1710000000500 aliceIn
     Server.latestData_init).1.

(** Alice's sign-in as the dashboard fetches it, 400 ms off the entry its
    history holds. *)
Definition aliceInFetched : Dashboard2.Raw :=
  {| Dashboard2.data_name := JStr "Alice";
     Dashboard2.data_action := JStr "in";
     Dashboard2.data_timestamp := JNum (Finite 1710000000400) |}.

Definition aliceInShown : Dashboard2.STATE :=
  (Dashboard2.processEntry utcRuntime 1710000000900
     {| Dashboard2.data_name := JStr "Alice";
        Dashboard2.data_action := JStr "in";
        Dashboard2.data_timestamp := JNum (Finite 1710000000000) |}
     Dashboard2.STATE_init).1.

(** The device dashboard after Alice's sign-in. *)
Definition aliceInDevice : Dashboard3.STATE :=
  (Dashboard3.processData utcRuntime 1710000000500
     {| Dashboard3.data_name := JStr "Alice";
        Dashboard3.data_action := JStr "in";
        Dashboard3.data_timestamp := JNum (Finite 1710000000);
        Dashboard3.data_time := JUndefined |} Dashboard3.STATE_init).1.

(** Alice's events as each dashboard receives them. *)
Definition aliceDevice (action : string) (timestamp : JsValue)
    : Dashboard3.Raw :=
  {| Dashboard3.data_name := JStr "Alice";
     Dashboard3.data_action := JStr action;
     Dashboard3.data_timestamp := timestamp;
     Dashboard3.data_time := JUndefined |}.

Definition aliceFetched (action : string) (timestamp : JsValue)
    : Dashboard2.Raw :=
  {| Dashboard2.data_name := JStr "Alice";
     Dashboard2.data_action := JStr action;
     Dashboard2.data_timestamp := timestamp |}.

(** Two sign-ins on the two sides of a midnight (UTC): 23:59:59 on
    2024-03-09 and 00:00:01 on 2024-03-10, as the server stores them. *)
Definition aroundMidnight : list Server.Entry :=
  Server.run utcRuntime
    [(1710028700000,
      {| Server.data_name := JStr "Alice"; Server.data_action := JStr "in";
         Server.data_timestamp := JNum (Finite 1710028799) |});
     (1710028700100,
      {| Server.data_name := JStr "Bob"; Server.data_action := JStr "in";
         Server.data_timestamp := JNum (Finite 1710028801) |})]
    Server.latestData_init.

(** ** Properties *)

Section Lists.
Context {A : Type}.

Lemma trim_firstn (n : nat) (xs : list A) : trim n xs = firstn n xs.
Proof.
  unfold trim. destruct (n <? length xs)%nat eqn:E; [done|].
  apply Nat.ltb_ge in E. by rewrite firstn_all2.
Qed.

Lemma firstn_cons_firstn (n : nat) (x : A) (xs : list A) :
  firstn n (x :: firstn n xs) = firstn n (x :: xs).
Proof.
  destruct n as [|n]; [done|].
  rewrite !firstn_cons, take_take. do 2 f_equal. lia.
Qed.

End Lists.

(** *** Values *)

Lemma strict_eq_eq (a b : JsValue) : strict_eq a b = true → a = b.
Proof.
  unfold strict_eq.
  destruct a as [| | |[| |]| |], b as [| | |[| |]| |];
    try discriminate; intros H; by apply bool_decide_eq_true in H.
Qed.

Lemma strict_eq_refl (a : JsValue) : a ≠ JNum NaN → strict_eq a a = true.
Proof.
  intros Ha. unfold strict_eq.
  destruct a as [| | |[| |]| |]; try done; by apply bool_decide_eq_true.
Qed.

Lemma truthy_not_NaN (a : JsValue) : truthy a = true → a ≠ JNum NaN.
Proof. by intros H ->. Qed.

Lemma strict_eq_str (v : JsValue) (s : string) :
  strict_eq v (JStr s) = bool_decide (v = JStr s).
Proof. by destruct v as [| | |[| |]| |]. Qed.

Lemma includes_in_out_spec (v : JsValue) :
  Server.includes_in_out v = true ↔ v = JStr "in" ∨ v = JStr "out".
Proof.
  unfold Server.includes_in_out. rewrite orb_true_iff. split.
  - intros [H|H]; apply strict_eq_eq in H; auto.
  - intros [->| ->]; [left|right]; done.
Qed.

Lemma roundDouble_exact (z : Z) :
  Z.abs z < 2 ^ 53 → roundDouble z = Finite z.
Proof. intros H. unfold roundDouble. by rewrite (proj2 (Z.ltb_lt _ _) H). Qed.

Lemma TimeClip_in_range (z : Z) :
  Z.abs z ≤ 8640000000000000 → TimeClip (Finite z) = Finite z.
Proof. intros H. unfold TimeClip. by rewrite (proj2 (Z.leb_le _ _) H). Qed.

Lemma TimeClip_out_of_range (z : Z) :
  8640000000000000 < Z.abs z → TimeClip (Finite z) = NaN.
Proof. intros H. unfold TimeClip. by rewrite (proj2 (Z.leb_gt _ _) H). Qed.

Lemma TimeClip_valid (x : Number) :
  isNaN (TimeClip x) = false → ∃ t, TimeClip x = Finite t.
Proof.
  destruct x as [z| |]; try done. unfold TimeClip.
  destruct (Z.abs z <=? 8640000000000000); [by exists z | done].
Qed.

(** *** The server *)

Section ServerFacts.
Variable rt : JsRuntime.
Implicit Types (data : Server.Raw) (latestData : list Server.Entry).

Lemma post_accepted now data latestData :
  Server.accepted data = true →
  Server.post_fingerprint_data rt now data latestData
  = (firstn Server.MAX_HISTORY (Server.entry_of rt (now, data) :: latestData),
     if printable rt (Server.data_name data)
     then Server.Ok200 (Server.entry_of rt (now, data))
     else Server.ServerError500).
Proof.
  unfold Server.accepted, Server.post_fingerprint_data.
  rewrite !andb_true_iff. intros [[[-> ->] ->] ->]. simpl.
  rewrite trim_firstn. by destruct (printable rt (Server.data_name data)).
Qed.

Lemma post_rejected now data latestData :
  Server.accepted data = false →
  ∃ error, Server.post_fingerprint_data rt now data latestData
           = (latestData, Server.BadRequest400 error).
Proof.
  unfold Server.accepted, Server.post_fingerprint_data.
  destruct (truthy (Server.data_name data)),
    (truthy (Server.data_action data)),
    (truthy (Server.data_timestamp data)),
    (Server.includes_in_out (Server.data_action data));
    simpl; try discriminate; eauto.
Qed.

Lemma run_accepted reqs latestData :
  forallb (λ req, Server.accepted req.2) reqs = true →
  Server.run rt reqs (firstn Server.MAX_HISTORY latestData)
  = firstn Server.MAX_HISTORY
      (rev (map (Server.entry_of rt) reqs) ++ latestData).
Proof.
  revert latestData.
  induction reqs as [|[now data] reqs IH]; intros latestData Hok; [done|].
  simpl in Hok. apply andb_true_iff in Hok as [Hd Hrest].
  cbn [Server.run]. rewrite post_accepted by done. cbn [fst].
  rewrite firstn_cons_firstn, (IH _ Hrest).
  cbn [map rev]. by rewrite <- app_assoc.
Qed.

End ServerFacts.

(** C5. Ingestion is rejected with a validation error (status 400)
    whenever the name is missing or empty, the action is missing, or the
    action is neither of the literals 'in' and 'out'; the records
    [{name: (the empty string), action: 'in', timestamp: 123}] and
    [{name: 'Bob', action: 'left', timestamp: 123}] are both rejected. *)
Theorem C5_validation_rejection :
  (∀ rt now data latestData,
      Server.data_name data = JUndefined
      ∨ Server.data_name data = JStr EmptyString
      ∨ Server.data_action data = JUndefined
      ∨ (Server.data_action data ≠ JStr "in"
         ∧ Server.data_action data ≠ JStr "out") →
      ∃ error, (Server.post_fingerprint_data rt now data latestData).2
               = Server.BadRequest400 error)
  ∧ (∀ rt now latestData,
      ∃ error,
        (Server.post_fingerprint_data rt now
           {| Server.data_name := JStr EmptyString;
              Server.data_action := JStr "in";
              Server.data_timestamp := JNum (Finite 123) |} latestData).2
        = Server.BadRequest400 error)
  ∧ (∀ rt now latestData,
      ∃ error,
        (Server.post_fingerprint_data rt now
           {| Server.data_name := JStr "Bob";
              Server.data_action := JStr "left";
              Server.data_timestamp := JNum (Finite 123) |} latestData).2
        = Server.BadRequest400 error).
Proof.
  assert (Hgen : ∀ rt now data latestData,
             Server.accepted data = false →
             ∃ error, (Server.post_fingerprint_data rt now data latestData).2
                      = Server.BadRequest400 error).
  { intros rt now data latestData H.
    destruct (post_rejected rt now data latestData H) as [error ->]. eauto. }
  split; [|split].
  - intros rt now data latestData H. apply Hgen. unfold Server.accepted.
    destruct H as [-> | [-> | [-> | [Hin Hout]]]]; try done.
    + by rewrite andb_false_r.
    + destruct (Server.includes_in_out (Server.data_action data)) eqn:E.
      * apply includes_in_out_spec in E as [?|?]; done.
      * by rewrite andb_false_r.
  - intros. by apply Hgen.
  - intros. by apply Hgen.
Qed.

Lemma C5_validation_rejection_witness :
  ∃ error,
    (Server.post_fingerprint_data utcRuntime 1710000001234
       {| Server.data_name := JStr "Alice";
          Server.data_action := JUndefined;
          Server.data_timestamp := JNum (Finite 1710000000) |} []).2
    = Server.BadRequest400 error.
Proof.
  apply (proj1 C5_validation_rejection utcRuntime 1710000001234
           {| Server.data_name := JStr "Alice";
              Server.data_action := JUndefined;
              Server.data_timestamp := JNum (Finite 1710000000) |} []).
  right. right. left. reflexivity.
Defined.

(** C3, as stated, fails where the product leaves the integers a double
    holds: the timestamp -72057594037929, which is below 10,000,000,000,
    is stored as -72057594037928992, the double nearest to the product,
    and not as -72057594037929 * 1000. *)
Lemma C3_product_is_rounded :
  Server.accepted
    {| Server.data_name := JStr "Alice"; Server.data_action := JStr "in";
       Server.data_timestamp := JNum (Finite (-72057594037929)) |} = true
  ∧ -72057594037929 < 10000000000
  ∧ Server.post_fingerprint_data utcRuntime 1710000001234
      {| Server.data_name := JStr "Alice"; Server.data_action := JStr "in";
         Server.data_timestamp := JNum (Finite (-72057594037929)) |} []
    = ([{| Server.entry_name := JStr "Alice";
           Server.entry_action := JStr "in";
           Server.entry_timestamp := JNum (Finite (-72057594037928992));
           Server.receivedAt := 1710000001234 |}],
       Server.Ok200
         {| Server.entry_name := JStr "Alice";
            Server.entry_action := JStr "in";
            Server.entry_timestamp := JNum (Finite (-72057594037928992));
            Server.receivedAt := 1710000001234 |})
  ∧ -72057594037928992 ≠ -72057594037929 * 1000.
Proof.
  split; [reflexivity|]. split; [lia|].
  split; [vm_compute; reflexivity | lia].
Qed.

(** C3, amended. An integer timestamp that ingestion accepts is taken as
    epoch seconds exactly when it is below 10,000,000,000, and is then
    stored multiplied by 1000; otherwise it is taken as epoch milliseconds
    and stored unchanged.  The product is the product of doubles, which is
    the exact product from -9,007,199,254,740 up.  So 1710000000 is stored
    as 1710000000 * 1000 and 1710000000123 is stored as it is.  The
    request is answered with success when the log line can print its
    name. *)
Theorem C3_timestamp_unit :
  (∀ rt now data latestData z,
      Server.accepted data = true →
      Server.data_timestamp data = JNum (Finite z) →
      ∃ entry,
        (Server.post_fingerprint_data rt now data latestData).1
        = firstn Server.MAX_HISTORY (entry :: latestData)
        ∧ (printable rt (Server.data_name data) = true →
           (Server.post_fingerprint_data rt now data latestData).2
           = Server.Ok200 entry)
        ∧ (z < 10000000000 →
           Server.entry_timestamp entry = JNum (num_mul (Finite z) 1000))
        ∧ (-9007199254740 ≤ z < 10000000000 →
           Server.entry_timestamp entry = JNum (Finite (z * 1000)))
        ∧ (10000000000 ≤ z →
           Server.entry_timestamp entry = JNum (Finite z)))
  ∧ (∀ rt, Server.normalize rt (JNum (Finite 1710000000))
           = JNum (Finite (1710000000 * 1000)))
  ∧ (∀ rt, Server.normalize rt (JNum (Finite 1710000000123))
           = JNum (Finite 1710000000123)).
Proof.
  split; [|split]; [|done..].
  intros rt now data latestData z Hok Hz.
  exists (Server.entry_of rt (now, data)).
  rewrite post_accepted by done. cbn [fst snd].
  split; [done|]. split; [by intros ->|].
  unfold Server.entry_of, Server.normalize; cbn [Server.entry_timestamp snd].
  rewrite Hz. cbn [num_lt].
  split; [|split].
  - intros Hlt. by rewrite (proj2 (Z.ltb_lt _ _) Hlt).
  - intros [Hlo Hlt]. rewrite (proj2 (Z.ltb_lt _ _) Hlt).
    cbn [num_mul]. rewrite roundDouble_exact; [done|]. lia.
  - intros Hge. by rewrite (proj2 (Z.ltb_ge _ _) Hge).
Qed.

Lemma C3_timestamp_unit_witness :
  ∃ entry,
    (Server.post_fingerprint_data utcRuntime 1710000001234 aliceIn []).1
    = firstn Server.MAX_HISTORY [entry]
    ∧ (printable utcRuntime (Server.data_name aliceIn) = true →
       (Server.post_fingerprint_data utcRuntime 1710000001234 aliceIn []).2
       = Server.Ok200 entry)
    ∧ (1710000000 < 10000000000 →
       Server.entry_timestamp entry
       = JNum (num_mul (Finite 1710000000) 1000))
    ∧ (-9007199254740 ≤ 1710000000 < 10000000000 →
       Server.entry_timestamp entry = JNum (Finite (1710000000 * 1000)))
    ∧ (10000000000 ≤ 1710000000 →
       Server.entry_timestamp entry = JNum (Finite 1710000000)).
Proof.
  apply (proj1 C3_timestamp_unit utcRuntime 1710000001234 aliceIn []
           1710000000); reflexivity.
Defined.

(** C10. A record whose timestamp is the number 0 is rejected with the
    validation error of a missing field, whatever its name and action,
    because the presence of the field is tested by truthiness; a truthy
    timestamp that is neither a number nor a string (the boolean true, an
    object) passes validation and is stored as it is, without
    normalization, and the request is answered with success when the log
    line can print its name. *)
Theorem C10_zero_and_untyped_timestamps :
  (∀ rt now name action latestData,
      Server.post_fingerprint_data rt now
        {| Server.data_name := name; Server.data_action := action;
           Server.data_timestamp := JNum (Finite 0) |} latestData
      = Server.post_fingerprint_data rt now
        {| Server.data_name := name; Server.data_action := action;
           Server.data_timestamp := JUndefined |} latestData
      ∧ Server.post_fingerprint_data rt now
        {| Server.data_name := name; Server.data_action := action;
           Server.data_timestamp := JNum (Finite 0) |} latestData
      = (latestData,
         Server.BadRequest400
           "Invalid data format. Required: name, action, timestamp"))
  ∧ (∀ rt now name action v latestData,
      truthy name = true →
      Server.includes_in_out action = true →
      truthy v = true →
      typeof v ≠ TNumber →
      typeof v ≠ TString →
      let entry := {| Server.entry_name := name;
                      Server.entry_action := action;
                      Server.entry_timestamp := v;
                      Server.receivedAt := now |} in
      let data := {| Server.data_name := name; Server.data_action := action;
                     Server.data_timestamp := v |} in
      (Server.post_fingerprint_data rt now data latestData).1
      = firstn Server.MAX_HISTORY (entry :: latestData)
      ∧ (printable rt name = true →
         (Server.post_fingerprint_data rt now data latestData).2
         = Server.Ok200 entry)).
Proof.
  split.
  - intros rt now name action latestData.
    unfold Server.post_fingerprint_data; simpl.
    by rewrite !orb_true_r.
  - intros rt now name action v latestData Hn Ha Hv Hnum Hstr entry data.
    rewrite post_accepted.
    + unfold Server.entry_of; cbn [fst snd data Server.data_name
        Server.data_action Server.data_timestamp].
      assert (Server.normalize rt v = v) as -> by (by destruct v).
      split; [done|]. by intros ->.
    + unfold Server.accepted; simpl. rewrite Hn, Hv, Ha.
      apply includes_in_out_spec in Ha as [->| ->]; done.
Qed.

Lemma C10_zero_and_untyped_timestamps_witness :
  let entry := {| Server.entry_name := JStr "Alice";
                  Server.entry_action := JStr "out";
                  Server.entry_timestamp := JBool true;
                  Server.receivedAt := 1710000001234 |} in
  let data := {| Server.data_name := JStr "Alice";
                 Server.data_action := JStr "out";
                 Server.data_timestamp := JBool true |} in
  (Server.post_fingerprint_data utcRuntime 1710000001234 data []).1
  = firstn Server.MAX_HISTORY [entry]
  ∧ (printable utcRuntime (JStr "Alice") = true →
     (Server.post_fingerprint_data utcRuntime 1710000001234 data []).2
     = Server.Ok200 entry).
Proof.
  apply (proj2 C10_zero_and_untyped_timestamps utcRuntime 1710000001234
           (JStr "Alice") (JStr "out") (JBool true) []);
    [reflexivity | reflexivity | reflexivity | discriminate | discriminate].
Defined.

(** C9. A record that fails the validation leaves the ledger as it was:
    the server's store after a rejected request is the store before it,
    and on the dashboards data without a truthy name or action is
    ignored, with the activity history, the counters and the active-session
    map unchanged. *)
Theorem C9_rejection_mutates_nothing :
  (∀ rt now data latestData error,
      (Server.post_fingerprint_data rt now data latestData).2
      = Server.BadRequest400 error →
      (Server.post_fingerprint_data rt now data latestData).1 = latestData)
  ∧ (∀ rt now data st,
      truthy (Dashboard2.data_name data) = false
      ∨ truthy (Dashboard2.data_action data) = false →
      Dashboard2.processEntry rt now data st = (st, Ignored))
  ∧ (∀ rt now data st,
      truthy (Dashboard3.data_name data) = false
      ∨ truthy (Dashboard3.data_action data) = false →
      Dashboard3.processData rt now data st = (st, Ignored)).
Proof.
  split; [|split].
  - intros rt now data latestData error H.
    destruct (Server.accepted data) eqn:E.
    + rewrite post_accepted in H by done. cbn [snd] in H.
      by destruct (printable rt (Server.data_name data)).
    + by destruct (post_rejected rt now data latestData E) as [e ->].
  - intros rt now data st H. unfold Dashboard2.processEntry.
    destruct H as [-> | ->]; [done|]. by rewrite orb_true_r.
  - intros rt now data st H. unfold Dashboard3.processData.
    destruct H as [-> | ->]; [done|]. by rewrite orb_true_r.
Qed.

Lemma C9_rejection_mutates_nothing_witness :
  (Server.post_fingerprint_data utcRuntime 1710000001234
     {| Server.data_name := JStr "Bob"; Server.data_action := JStr "left";
        Server.data_timestamp := JNum (Finite 123) |} aliceInStored).1
  = aliceInStored.
Proof.
  apply (proj1 C9_rejection_mutates_nothing utcRuntime 1710000001234 _ _
           Server.invalid_action).
  reflexivity.
Defined.

(** *** The server dashboard *)

Section Dashboard2Facts.
Variable rt : JsRuntime.
Implicit Types (data : Dashboard2.Raw) (st : Dashboard2.STATE).

Lemma stores_unfold now data st :
  Dashboard2.stores rt now data st = true
  ↔ truthy (Dashboard2.data_name data) = true
    ∧ truthy (Dashboard2.data_action data) = true
    ∧ Dashboard2.isDuplicate data
        (Dashboard2.convert rt now (Dashboard2.data_timestamp data))
        (Dashboard2.activityHistory st) = false
    ∧ printable rt (Dashboard2.data_name data) = true
    ∧ printable rt (Dashboard2.data_action data) = true.
Proof.
  unfold Dashboard2.stores, Dashboard2.fresh.
  rewrite !andb_true_iff, negb_true_iff. tauto.
Qed.

Lemma processEntry_stores now data st :
  Dashboard2.stores rt now data st = true →
  Dashboard2.processEntry rt now data st
  = ({| Dashboard2.activeSessions :=
          Dashboard2.activeSessions
            (Dashboard2.processEntry rt now data st).1;
        Dashboard2.activityHistory :=
          firstn 50 (Dashboard2.entry_of rt now data
                     :: Dashboard2.activityHistory st) |},
     Processed).
Proof.
  intros (Hn & Ha & Hd & Hpn & Hpa)%stores_unfold.
  unfold Dashboard2.processEntry. rewrite Hn, Ha, Hd, Hpn, Hpa. simpl.
  by rewrite trim_firstn.
Qed.

Lemma processEntry_not_stores now data st :
  Dashboard2.stores rt now data st = false →
  (Dashboard2.processEntry rt now data st).1 = st
  ∧ (Dashboard2.processEntry rt now data st).2 ≠ Processed.
Proof.
  unfold Dashboard2.stores, Dashboard2.fresh, Dashboard2.processEntry.
  destruct (truthy (Dashboard2.data_name data)),
    (truthy (Dashboard2.data_action data)); try done.
  cbn [negb orb andb].
  destruct (Dashboard2.isDuplicate _ _ _); [done|].
  destruct (printable rt (Dashboard2.data_name data)),
    (printable rt (Dashboard2.data_action data)); done.
Qed.

Lemma processEntry_sessions now data st :
  Dashboard2.stores rt now data st = true →
  Dashboard2.activeSessions (Dashboard2.processEntry rt now data st).1
  = if strict_eq (Dashboard2.data_action data) (JStr "in")
    then <[Dashboard2.data_name data :=
             {| session_name := Dashboard2.data_name data;
                startTime :=
                  Dashboard2.convert rt now (Dashboard2.data_timestamp data) |}]>
           (Dashboard2.activeSessions st)
    else if strict_eq (Dashboard2.data_action data) (JStr "out")
    then delete (Dashboard2.data_name data) (Dashboard2.activeSessions st)
    else Dashboard2.activeSessions st.
Proof.
  intros (Hn & Ha & Hd & Hpn & Hpa)%stores_unfold.
  unfold Dashboard2.processEntry. by rewrite Hn, Ha, Hd, Hpn, Hpa.
Qed.

Lemma batch_stored inputs st history :
  Dashboard2_all_stored rt inputs st = true →
  Dashboard2.activityHistory st = firstn 50 history →
  Dashboard2.activityHistory (Dashboard2.processDataBatch rt inputs st).1
  = firstn 50
      (rev (map (λ i, Dashboard2.entry_of rt i.1 i.2) inputs) ++ history).
Proof.
  revert st history.
  induction inputs as [|[now data] inputs IH]; intros st history Hok Hst;
    [done|].
  cbn [Dashboard2_all_stored] in Hok. apply andb_true_iff in Hok as [Hd Hrest].
  cbn [Dashboard2.processDataBatch map rev]. rewrite <- app_assoc.
  pose proof (processEntry_stores _ _ _ Hd) as Hstep.
  destruct (Dashboard2.processEntry rt now data st) as [st' outcome] eqn:E.
  cbn [fst] in *.
  assert (Hhist : Dashboard2.activityHistory st'
                  = firstn 50 (Dashboard2.entry_of rt now data
                               :: Dashboard2.activityHistory st))
    by (by apply (f_equal (λ r, Dashboard2.activityHistory r.1)) in Hstep).
  apply (f_equal snd) in Hstep. cbn [snd] in Hstep. subst outcome.
  apply (IH _ _ Hrest).
  rewrite Hhist, Hst, firstn_cons_firstn. done.
Qed.

End Dashboard2Facts.

(** C4. After a sequence of N successful, non-duplicate ingestions into
    an empty ledger, with N above the retention cap (100 in the server's
    store, 50 in the dashboard's activity history), the retained history
    has exactly cap entries: the last cap ingested events, newest first;
    the earlier ones are gone, oldest first. *)
Theorem C4_bounded_retention :
  (∀ rt reqs,
      forallb (λ req, Server.accepted req.2) reqs = true →
      (Server.MAX_HISTORY < length reqs)%nat →
      let history := Server.run rt reqs Server.latestData_init in
      length history = Server.MAX_HISTORY
      ∧ history
        = rev (skipn (length reqs - Server.MAX_HISTORY)
                     (map (Server.entry_of rt) reqs)))
  ∧ (∀ rt inputs,
      Dashboard2_all_stored rt inputs Dashboard2.STATE_init = true →
      (50 < length inputs)%nat →
      let history :=
        Dashboard2.activityHistory
          (Dashboard2.processDataBatch rt inputs Dashboard2.STATE_init).1 in
      length history = 50%nat
      ∧ history
        = rev (skipn (length inputs - 50)
                     (map (λ i, Dashboard2.entry_of rt i.1 i.2) inputs))).
Proof.
  split.
  - intros rt reqs Hok Hlen history.
    assert (Hrun : history
                   = firstn Server.MAX_HISTORY
                       (rev (map (Server.entry_of rt) reqs))).
    { unfold history, Server.latestData_init.
      change (@nil Server.Entry) with (firstn Server.MAX_HISTORY (@nil Server.Entry)).
      rewrite (run_accepted rt reqs [] Hok). by rewrite app_nil_r. }
    split.
    + rewrite Hrun, length_take, length_rev, length_map. lia.
    + by rewrite Hrun, firstn_rev, length_map.
  - intros rt inputs Hok Hlen history.
    assert (Hrun : history
                   = firstn 50
                       (rev (map (λ i, Dashboard2.entry_of rt i.1 i.2)
                                 inputs))).
    { unfold history.
      rewrite (batch_stored rt inputs Dashboard2.STATE_init [] Hok eq_refl).
      by rewrite app_nil_r. }
    split.
    + rewrite Hrun, length_take, length_rev, length_map. lia.
    + by rewrite Hrun, firstn_rev, length_map.
Qed.

Lemma C4_bounded_retention_witness :
  (let history :=
     Server.run utcRuntime (everySecond 101) Server.latestData_init in
   length history = Server.MAX_HISTORY
   ∧ history
     = rev (skipn (length (everySecond 101) - Server.MAX_HISTORY)
                  (map (Server.entry_of utcRuntime) (everySecond 101))))
  ∧ (let history :=
       Dashboard2.activityHistory
         (Dashboard2.processDataBatch utcRuntime (everySecondFetched 51)
            Dashboard2.STATE_init).1 in
     length history = 50%nat
     ∧ history
       = rev (skipn (length (everySecondFetched 51) - 50)
                    (map (λ i, Dashboard2.entry_of utcRuntime i.1 i.2)
                         (everySecondFetched 51)))).
Proof.
  split.
  - apply (proj1 C4_bounded_retention utcRuntime (everySecond 101)).
    + vm_compute. reflexivity.
    + vm_compute. lia.
  - apply (proj2 C4_bounded_retention utcRuntime (everySecondFetched 51)).
    + vm_compute. reflexivity.
    + vm_compute. lia.
Defined.

(** *** Duplicates *)

Lemma isDuplicate_of rt now data history t :
  truthy (Dashboard2.data_name data) = true →
  truthy (Dashboard2.data_action data) = true →
  Dashboard2.convert rt now (Dashboard2.data_timestamp data) = Finite t →
  Spec.duplicateOf (Dashboard2.data_name data) (Dashboard2.data_action data)
    t 1000 (Dashboard2_events history) →
  Dashboard2.isDuplicate data
    (Dashboard2.convert rt now (Dashboard2.data_timestamp data)) history
  = true.
Proof.
  intros Hn Ha Ht (t0 & Hin & Hclose).
  apply list_elem_of_In, in_map_iff in Hin as (e & He & Hin).
  injection He as Hen Hea Het.
  apply existsb_exists. exists e. split; [done|].
  rewrite Hen, Hea, Het, Ht.
  rewrite !strict_eq_refl by (by apply truthy_not_NaN).
  simpl. by apply Z.ltb_lt.
Qed.

(** C1, as stated, fails on the server: the store already holds Alice's
    sign-in of the same instant, the same request is sent again, and the
    store grows by a second copy. *)
Lemma C1_server_stores_duplicates :
  Server.accepted aliceIn = true
  ∧ Spec.duplicateOf (JStr "Alice") (JStr "in") (1710000000 * 1000) 1000
      (Server_events aliceInStored)
  ∧ (Server.post_fingerprint_data utcRuntime 1710000000900 aliceIn
       aliceInStored).1 ≠ aliceInStored
  ∧ length (Server.post_fingerprint_data utcRuntime 1710000000900 aliceIn
              aliceInStored).1 = 2%nat.
Proof.
  split; [reflexivity|]. split; [|split; [discriminate | reflexivity]].
  exists 1710000000000. split; [|done].
  vm_compute. apply list_elem_of_here.
Qed.

(** C1, amended. The duplicate suppression is the dashboard's: when the
    activity history already holds an entry of the same name and action
    whose time is within 1000 ms of the candidate's converted timestamp,
    [processEntry] returns with the history and the active sessions as
    they were, and raises no error.  The server suppresses nothing: every
    valid request is stored at the front, and answered with success when
    the log line can print its name. *)
Theorem C1_duplicate_suppression :
  (∀ rt now data st t,
      truthy (Dashboard2.data_name data) = true →
      truthy (Dashboard2.data_action data) = true →
      Dashboard2.convert rt now (Dashboard2.data_timestamp data) = Finite t →
      Spec.duplicateOf (Dashboard2.data_name data)
        (Dashboard2.data_action data) t 1000
        (Dashboard2_events (Dashboard2.activityHistory st)) →
      Dashboard2.processEntry rt now data st = (st, Ignored))
  ∧ (∀ rt now data latestData,
      Server.accepted data = true →
      (Server.post_fingerprint_data rt now data latestData).1
      = firstn Server.MAX_HISTORY
          (Server.entry_of rt (now, data) :: latestData)
      ∧ (printable rt (Server.data_name data) = true →
         (Server.post_fingerprint_data rt now data latestData).2
         = Server.Ok200 (Server.entry_of rt (now, data)))).
Proof.
  split.
  - intros rt now data st t Hn Ha Ht Hdup.
    unfold Dashboard2.processEntry. rewrite Hn, Ha. simpl.
    by rewrite (isDuplicate_of rt now data _ t Hn Ha Ht Hdup).
  - intros rt now data latestData Hok. rewrite post_accepted by done.
    split; [done|]. by intros ->.
Qed.

Lemma C1_duplicate_suppression_witness :
  Dashboard2.processEntry utcRuntime 1710000003900 aliceInFetched aliceInShown
  = (aliceInShown, Ignored).
Proof.
  apply (proj1 C1_duplicate_suppression utcRuntime 1710000003900
           aliceInFetched aliceInShown 1710000000400);
    [reflexivity | reflexivity | reflexivity |].
  exists 1710000000000. split; [|vm_compute; reflexivity].
  vm_compute. apply list_elem_of_here.
Defined.

(** *** Timestamps that are absent or do not parse *)

Lemma parseTimestamp_fallback rt now timestamp :
  timestamp = JUndefined
  ∨ (∃ s, timestamp = JStr s ∧ Date_parse rt s = NaN) →
  Dashboard3.parseTimestamp rt now timestamp = Some (Finite now).
Proof.
  intros [-> | (s & -> & Hs)]; [done|].
  unfold Dashboard3.parseTimestamp.
  destruct (truthy (JStr s)); [|done].
  unfold Dashboard3.dateOrNow. simpl. by rewrite Hs.
Qed.

(** C2, as stated, fails on the server: a record with a name and a
    recognized action but no timestamp is answered with the validation
    error, and a timestamp string that does not parse is stored as NaN,
    not as the instant of the request. *)
Lemma C2_server_requires_timestamp :
  Server.post_fingerprint_data utcRuntime 1710000000500
    {| Server.data_name := JStr "Alice"; Server.data_action := JStr "in";
       Server.data_timestamp := JUndefined |} Server.latestData_init
  = (Server.latestData_init,
     Server.BadRequest400
       "Invalid data format. Required: name, action, timestamp")
  ∧ Server.post_fingerprint_data utcRuntime 1710000000500
      {| Server.data_name := JStr "Alice"; Server.data_action := JStr "in";
         Server.data_timestamp := JStr "yesterday-ish" |}
      Server.latestData_init
    = ([{| Server.entry_name := JStr "Alice";
           Server.entry_action := JStr "in";
           Server.entry_timestamp := JNum NaN;
           Server.receivedAt := 1710000000500 |}],
       Server.Ok200
         {| Server.entry_name := JStr "Alice";
            Server.entry_action := JStr "in";
            Server.entry_timestamp := JNum NaN;
            Server.receivedAt := 1710000000500 |}).
Proof. split; reflexivity. Qed.

(** C2, amended. The server requires the timestamp: a record without one
    is rejected with the validation error and the store is unchanged.  The
    fall-back to the current instant is the device dashboard's: for a
    timestamp that is absent, or a string that fails to parse,
    [parseTimestamp] returns the current instant and does not raise, and
    [processData], given a name and a recognized action, stores the event
    with that instant; it runs to its end when the page can print every
    name it has to show. *)
Theorem C2_timestamp_fallback :
  (∀ rt now name action latestData,
      Server.post_fingerprint_data rt now
        {| Server.data_name := name; Server.data_action := action;
           Server.data_timestamp := JUndefined |} latestData
      = (latestData,
         Server.BadRequest400
           "Invalid data format. Required: name, action, timestamp"))
  ∧ (∀ rt now data a st,
      truthy (Dashboard3.data_name data) = true →
      Dashboard3.data_action data = JStr a →
      toLowerCase rt a = "in" ∨ toLowerCase rt a = "out" →
      a ≠ EmptyString →
      Dashboard3.data_time data = JUndefined →
      Dashboard3.data_timestamp data = JUndefined
      ∨ (∃ s, Dashboard3.data_timestamp data = JStr s
              ∧ Date_parse rt s = NaN) →
      let st' := (Dashboard3.processData rt now data st).1 in
      Dashboard3.parseTimestamp rt now (Dashboard3.data_timestamp data)
      = Some (Finite now)
      ∧ head (Dashboard3.activityHistory st')
        = Some {| Dashboard3.entry_name := Dashboard3.data_name data;
                  Dashboard3.entry_action := toLowerCase rt a;
                  Dashboard3.entry_timestamp := Finite now |}
      ∧ (Dashboard3.updateUI rt st' = true →
         (Dashboard3.processData rt now data st).2 = Processed)).
Proof.
  split.
  - intros rt now name action latestData.
    unfold Server.post_fingerprint_data; simpl. by rewrite !orb_true_r.
  - intros rt now data a st Hn Ha Hrec Hne Htime Hts st'.
    split; [by apply parseTimestamp_fallback|].
    assert (Htr : truthy (Dashboard3.data_action data) = true).
    { rewrite Ha. by destruct a. }
    assert (Hstamp : Dashboard3.parseTimestamp rt now
                       (js_or (Dashboard3.data_timestamp data)
                              (Dashboard3.data_time data))
                     = Some (Finite now)).
    { unfold js_or.
      destruct (truthy (Dashboard3.data_timestamp data)) eqn:E.
      - by apply parseTimestamp_fallback.
      - by rewrite Htime. }
    unfold st', Dashboard3.processData. rewrite Hn, Htr, Ha, Hstamp.
    cbn [negb orb fst snd]. split.
    + unfold Dashboard3.record, Dashboard3.addActivityEntry.
      cbn [Dashboard3.activityHistory]. by rewrite trim_firstn.
    + by intros ->.
Qed.

Lemma C2_timestamp_fallback_witness :
  let data := {| Dashboard3.data_name := JStr "Alice";
                 Dashboard3.data_action := JStr "IN";
                 Dashboard3.data_timestamp := JStr "yesterday-ish";
                 Dashboard3.data_time := JUndefined |} in
  let st' := (Dashboard3.processData utcRuntime 1710000000500 data
                Dashboard3.STATE_init).1 in
  Dashboard3.parseTimestamp utcRuntime 1710000000500 (JStr "yesterday-ish")
  = Some (Finite 1710000000500)
  ∧ head (Dashboard3.activityHistory st')
    = Some {| Dashboard3.entry_name := JStr "Alice";
              Dashboard3.entry_action := "in";
              Dashboard3.entry_timestamp := Finite 1710000000500 |}
  ∧ (Dashboard3.updateUI utcRuntime st' = true →
     (Dashboard3.processData utcRuntime 1710000000500 data
        Dashboard3.STATE_init).2 = Processed).
Proof.
  apply (proj2 C2_timestamp_fallback utcRuntime 1710000000500
           {| Dashboard3.data_name := JStr "Alice";
              Dashboard3.data_action := JStr "IN";
              Dashboard3.data_timestamp := JStr "yesterday-ish";
              Dashboard3.data_time := JUndefined |} "IN"
           Dashboard3.STATE_init);
    [reflexivity | reflexivity | left; reflexivity | discriminate
    | reflexivity |].
  right. exists "yesterday-ish". split; reflexivity.
Defined.

(** *** Clearing *)

(** C7, as stated, fails on the device dashboard: its [clearActivity]
    empties the activity history and keeps the active sessions. *)
Lemma C7_device_dashboard_keeps_sessions :
  Dashboard3.activityHistory (Dashboard3.clearActivity aliceInDevice) = []
  ∧ Dashboard3.activeSessions (Dashboard3.clearActivity aliceInDevice)
      !! JStr "Alice"
    = Some {| session_name := JStr "Alice";
              startTime := Finite 1710000000000 |}
  ∧ sessions (Dashboard3.activeSessions
                (Dashboard3.clearActivity aliceInDevice)) ≠ [].
Proof.
  split; [reflexivity|]. split; [vm_compute; reflexivity|].
  vm_compute. discriminate.
Qed.

(** C7, amended. The server's clear empties the retained history and
    reports the length the history had; the server keeps no
    active-session map.  The server dashboard's [clearActivity], once
    confirmed, empties the activity history and the active-session map
    together, so that both listings are empty afterwards; it reports no
    count.  The device dashboard's [clearActivity] empties its activity
    history. *)
Theorem C7_clear :
  (∀ latestData,
      Server.delete_api_data latestData = ([], length latestData)
      ∧ Server.get_api_data (Server.delete_api_data latestData).1 = (0%nat, []))
  ∧ (∀ st, Dashboard3.activityHistory (Dashboard3.clearActivity st) = [])
  ∧ (∀ st,
      Dashboard2.clearActivity true st = Dashboard2.STATE_init
      ∧ Dashboard2.activityHistory (Dashboard2.clearActivity true st) = []
      ∧ sessions (Dashboard2.activeSessions (Dashboard2.clearActivity true st))
        = []).
Proof.
  split; [done|]. split; [done|]. intros st. split; [done|]. split; [done|].
  unfold sessions. simpl. by rewrite map_to_list_empty.
Qed.

(** *** Active sessions *)






Lemma processData_writes rt now data a start st :
  truthy (Dashboard3.data_name data) = true →
  truthy (Dashboard3.data_action data) = true →
  Dashboard3.data_action data = JStr a →
  Dashboard3.parseTimestamp rt now
    (js_or (Dashboard3.data_timestamp data) (Dashboard3.data_time data))
  = Some start →
  (Dashboard3.processData rt now data st).1
  = Dashboard3.record
      {| Dashboard3.entry_name := Dashboard3.data_name data;
         Dashboard3.entry_action := toLowerCase rt a;
         Dashboard3.entry_timestamp := start |} st.
Proof.
  intros Hn Ht Ha Hstart. unfold Dashboard3.processData.
  rewrite Hn, Ht. cbn [negb orb]. by rewrite Ha, Hstart.
Qed.

Lemma record_sessions entry st :
  Dashboard3.activeSessions (Dashboard3.record entry st)
  = if String.eqb (Dashboard3.entry_action entry) "in"
    then <[Dashboard3.entry_name entry :=
             {| session_name := Dashboard3.entry_name entry;
                startTime := Dashboard3.entry_timestamp entry |}]>
           (Dashboard3.activeSessions st)
    else if String.eqb (Dashboard3.entry_action entry) "out"
    then delete (Dashboard3.entry_name entry) (Dashboard3.activeSessions st)
    else Dashboard3.activeSessions st.
Proof.
  unfold Dashboard3.record.
  destruct (String.eqb (Dashboard3.entry_action entry) "in"); [done|].
  by destruct (String.eqb (Dashboard3.entry_action entry) "out").
Qed.

Lemma processData_cases rt now data st :
  (Dashboard3.processData rt now data st).1 = st
  ∨ ∃ a start,
      truthy (Dashboard3.data_name data) = true
      ∧ truthy (Dashboard3.data_action data) = true
      ∧ Dashboard3.data_action data = JStr a
      ∧ Dashboard3.parseTimestamp rt now
          (js_or (Dashboard3.data_timestamp data) (Dashboard3.data_time data))
        = Some start.
Proof.
  unfold Dashboard3.processData.
  destruct (truthy (Dashboard3.data_name data)); [|by left].
  destruct (truthy (Dashboard3.data_action data)) eqn:Ht; [|by left].
  cbn [negb orb].
  destruct (Dashboard3.data_action data) as [| | | |a|]; try by left.
  destruct (Dashboard3.parseTimestamp _ _ _) as [start|]; [|by left].
  right. by exists a, start.
Qed.









Lemma parseTimestamp_seconds rt now z :
  1000000000 < z < 10000000000 →
  Dashboard3.parseTimestamp rt now (JNum (Finite z))
  = Some (Finite (z * 1000)).
Proof.
  intros Hz. unfold Dashboard3.parseTimestamp. cbn [truthy].
  replace (z =? 0) with false by (symmetry; apply Z.eqb_neq; lia).
  cbn [negb num_gt num_lt].
  replace (1000000000 <? z) with true by (symmetry; apply Z.ltb_lt; lia).
  replace (z <? 10000000000) with true by (symmetry; apply Z.ltb_lt; lia).
  cbn [andb num_mul newDate toNumber fmap option_fmap option_map].
  rewrite roundDouble_exact by lia.
  by rewrite TimeClip_in_range by lia.
Qed.



(** *** Statistics *)

Lemma utc_calendar : Spec.Calendar utcRuntime.
Proof.
  split; simpl; unfold utcMidnight.
  - intros t. pose proof (Z.mod_pos_bound t 86400000). lia.
  - intros s t Hst.
    rewrite (Z.div_mod s 86400000) at 1 by lia.
    rewrite (Z.div_mod t 86400000) at 1 by lia.
    pose proof (Z.div_le_mono s t 86400000). lia.
  - intros t.
    assert ((t - t mod 86400000) mod 86400000 = 0) as ->; [|lia].
    rewrite Zminus_mod_idemp_r, Z.sub_diag. done.
Qed.

Lemma filter_filter_andb {A} (p q : A → bool) (l : list A) :
  List.filter q (List.filter p l) = List.filter (λ x, p x && q x) l.
Proof.
  induction l as [|x l IH]; [done|]. simpl.
  destruct (p x); simpl; [destruct (q x)|]; by rewrite IH.
Qed.

Lemma filter_agree {A} (p q : A → bool) (ok : A → bool) (l : list A) :
  forallb ok l = true →
  (∀ x, ok x = true → p x = q x) →
  List.filter p l = List.filter q l.
Proof.
  intros Hl Hpq. apply filter_ext_in. intros x Hx. apply Hpq.
  by apply (proj1 (forallb_forall ok l) Hl).
Qed.

Lemma filterM_S {A} (p : nat → A → option bool) (i : nat) (l : list A) :
  filterM p (S i) l = filterM (λ j, p (S j)) i l.
Proof.
  revert i. induction l as [|x l IH]; intros i; [done|].
  cbn [filterM]. by rewrite IH.
Qed.

Lemma filterM_total {A} (p : nat → A → option bool) (q ok : A → bool)
    (i : nat) (l : list A) :
  forallb ok l = true →
  (∀ j x, ok x = true → p j x = Some (q x)) →
  filterM p i l = Some (List.filter q l).
Proof.
  intros Hl Hp. revert i. induction l as [|x l IH]; intros i; [done|].
  cbn [forallb] in Hl. apply andb_true_iff in Hl as [Hx Hl].
  cbn [filterM List.filter]. by rewrite (Hp i x Hx), (IH Hl).
Qed.

Section StatisticsFacts.
Variable rt : JsRuntime.
Hypothesis calendar : Spec.Calendar rt.

Lemma today_agrees asOf entry :
  Spec.datedBy asOf entry = true →
  js_ge rt (Server.entry_timestamp entry) (localMidnight rt asOf)
  = Some (Spec.occurred (Spec.inDayOf rt asOf) entry).
Proof.
  unfold Spec.datedBy, Spec.occurred, Spec.occurredAt, Spec.inDayOf, js_ge.
  destruct (Server.entry_timestamp entry) as [| | |[t|[]|]| |]; try done.
  simpl. intros Ht%Z.leb_le. f_equal.
  destruct calendar as [Hle Hmono Hidem].
  destruct (localMidnight rt asOf <=? t) eqn:E.
  - apply Z.leb_le in E. symmetry. apply Z.eqb_eq.
    pose proof (Hmono _ _ E) as H1. rewrite Hidem in H1.
    pose proof (Hmono _ _ Ht). lia.
  - apply Z.leb_gt in E. symmetry. apply Z.eqb_neq.
    pose proof (Hle t). lia.
Qed.

Lemma last24h_agrees asOf entry :
  Spec.datedBy asOf entry = true →
  js_ge rt (Server.entry_timestamp entry) (asOf - 24 * 60 * 60 * 1000)
  = Some (Spec.occurred (Spec.inLast24h asOf) entry).
Proof.
  unfold Spec.datedBy, Spec.occurred, Spec.occurredAt, Spec.inLast24h, js_ge.
  destruct (Server.entry_timestamp entry) as [| | |[t|[]|]| |]; try done.
  simpl. intros ->. by rewrite andb_true_r.
Qed.

Lemma statistics_agree asOf later latestData :
  (∀ i : nat, later i = asOf) →
  forallb (Spec.datedBy asOf) latestData = true →
  Server.get_api_stats rt asOf later latestData
  = Some (Spec.statistics rt asOf latestData).
Proof.
  intros Hlater Hl. unfold Server.get_api_stats, Spec.statistics.
  rewrite (filterM_total _ (Spec.occurred (Spec.inDayOf rt asOf))
             (Spec.datedBy asOf) 0 latestData Hl)
    by (intros _ x Hx; by apply today_agrees).
  rewrite (filterM_total _ (Spec.occurred (Spec.inLast24h asOf))
             (Spec.datedBy asOf) 0 latestData Hl)
    by (intros j x Hx; rewrite Hlater; by apply last24h_agrees).
  rewrite !filter_filter_andb. f_equal. f_equal; f_equal.
  - apply filter_ext. intros e. by rewrite strict_eq_str.
  - apply filter_ext. intros e. by rewrite strict_eq_str.
Qed.

End StatisticsFacts.

Lemma stats_step rt now later entry t latestData :
  Server.entry_timestamp entry = JNum (Finite t) →
  Server.get_api_stats rt now later (entry :: latestData)
  = (λ stats,
       {| Server.totalEntries := S (Server.totalEntries stats);
          Server.signInsToday :=
            if (localMidnight rt now <=? t)
               && strict_eq (Server.entry_action entry) (JStr "in")
            then S (Server.signInsToday stats) else Server.signInsToday stats;
          Server.signOutsToday :=
            if (localMidnight rt now <=? t)
               && strict_eq (Server.entry_action entry) (JStr "out")
            then S (Server.signOutsToday stats) else Server.signOutsToday stats;
          Server.entriesLast24h :=
            if later 0%nat - 24 * 60 * 60 * 1000 <=? t
            then S (Server.entriesLast24h stats)
            else Server.entriesLast24h stats |})
    <$> Server.get_api_stats rt now (λ i, later (S i)) latestData.
Proof.
  intros Ht. unfold Server.get_api_stats. cbn [filterM].
  unfold js_ge at 1 3. rewrite Ht.
  cbn [toNumber fmap option_fmap option_map num_ge].
  rewrite !filterM_S.
  destruct (filterM _ 0 latestData) as [todayEntries|]; [|done].
  destruct (filterM _ 0 latestData) as [last24h|]; [|done].
  cbn [fmap option_fmap option_map Server.totalEntries Server.signInsToday
       Server.signOutsToday Server.entriesLast24h].
  f_equal.
  destruct (localMidnight rt now <=? t),
    (later 0%nat - 24 * 60 * 60 * 1000 <=? t);
    cbn [andb List.filter length];
    destruct (strict_eq (Server.entry_action entry) (JStr "in")),
      (strict_eq (Server.entry_action entry) (JStr "out"));
    reflexivity.
Qed.

(** C6, as stated, fails: evaluated at 23:59:59.5 of the first day, the
    server counts the sign-in of 00:00:01 of the next day both in
    [signInsToday] and in [entriesLast24h], where the calendar day and the
    24 hours that end at that instant hold one sign-in. *)
Lemma C6_counts_have_no_upper_bound :
  Server.get_api_stats utcRuntime 1710028799500 (λ _, 1710028799500)
    aroundMidnight
  = Some {| Server.totalEntries := 2; Server.signInsToday := 2;
            Server.signOutsToday := 0; Server.entriesLast24h := 2 |}
  ∧ Spec.statistics utcRuntime 1710028799500 aroundMidnight
    = {| Server.totalEntries := 2; Server.signInsToday := 1;
         Server.signOutsToday := 0; Server.entriesLast24h := 1 |}
  ∧ Server.get_api_stats utcRuntime 1710028799500 (λ _, 1710028799500)
      aroundMidnight
    ≠ Some (Spec.statistics utcRuntime 1710028799500 aroundMidnight).
Proof.
  split; [vm_compute; reflexivity|].
  split; [vm_compute; reflexivity | vm_compute; discriminate].
Qed.

(** C6, amended. The windows of [statistics()] are bounded below only.
    Of an empty store every count is 0; a retained event dated t adds one
    to the total, one to [signInsToday] (or to [signOutsToday]) when its
    action is 'in' (or 'out') and t is at or after the local midnight that
    begins the day of asOf, and one to [entriesLast24h] when t is at or
    after the reading of the clock minus 24 hours, however late t is.
    When no retained event is dated after asOf, and the clock still reads
    asOf, these are the counts of the local calendar day of asOf and of
    the 24 hours that end at asOf; an event dated before that midnight,
    such as one at 23:59:59 of the day before, is never counted in the
    day's sign-ins or sign-outs. *)
Theorem C6_statistics :
  (∀ rt asOf later latestData,
      Spec.Calendar rt →
      (∀ i : nat, later i = asOf) →
      forallb (Spec.datedBy asOf) latestData = true →
      Server.get_api_stats rt asOf later latestData
      = Some (Spec.statistics rt asOf latestData))
  ∧ (∀ rt asOf later,
      Server.get_api_stats rt asOf later []
      = Some {| Server.totalEntries := 0; Server.signInsToday := 0;
                Server.signOutsToday := 0; Server.entriesLast24h := 0 |})
  ∧ (∀ rt asOf later entry t latestData,
      Server.entry_timestamp entry = JNum (Finite t) →
      Server.get_api_stats rt asOf later (entry :: latestData)
      = (λ stats,
           {| Server.totalEntries := S (Server.totalEntries stats);
              Server.signInsToday :=
                if (localMidnight rt asOf <=? t)
                   && strict_eq (Server.entry_action entry) (JStr "in")
                then S (Server.signInsToday stats) else Server.signInsToday stats;
              Server.signOutsToday :=
                if (localMidnight rt asOf <=? t)
                   && strict_eq (Server.entry_action entry) (JStr "out")
                then S (Server.signOutsToday stats) else Server.signOutsToday stats;
              Server.entriesLast24h :=
                if later 0%nat - 24 * 60 * 60 * 1000 <=? t
                then S (Server.entriesLast24h stats)
                else Server.entriesLast24h stats |})
        <$> Server.get_api_stats rt asOf (λ i, later (S i)) latestData)
  ∧ (∀ rt asOf later entry t latestData stats,
      Server.entry_timestamp entry = JNum (Finite t) →
      t < localMidnight rt asOf →
      Server.get_api_stats rt asOf (λ i, later (S i)) latestData
      = Some stats →
      ∃ stats',
        Server.get_api_stats rt asOf later (entry :: latestData) = Some stats'
        ∧ Server.signInsToday stats' = Server.signInsToday stats
        ∧ Server.signOutsToday stats' = Server.signOutsToday stats).
Proof.
  split; [|split; [|split]].
  - intros rt asOf later latestData Hcal Hlater Hl. by apply statistics_agree.
  - done.
  - intros rt asOf later entry t latestData Ht. by apply stats_step.
  - intros rt asOf later entry t latestData stats Ht Hlt Hstats.
    rewrite (stats_step rt asOf later entry t latestData Ht), Hstats.
    eexists. split; [done|].
    cbn [Server.signInsToday Server.signOutsToday].
    by rewrite (proj2 (Z.leb_gt _ _) Hlt).
Qed.

Lemma C6_statistics_witness :
  Server.get_api_stats utcRuntime 1710028802000 (λ _, 1710028802000)
    aroundMidnight
  = Some (Spec.statistics utcRuntime 1710028802000 aroundMidnight)
  ∧ Server.signInsToday
      (Spec.statistics utcRuntime 1710028802000 aroundMidnight) = 1%nat.
Proof.
  split; [|vm_compute; reflexivity].
  apply (proj1 C6_statistics utcRuntime 1710028802000 (λ _, 1710028802000)
           aroundMidnight utc_calendar).
  - reflexivity.
  - vm_compute. reflexivity.
Defined.

(** ** Further properties of the server *)

Lemma head_rev_last {A} (l : list A) : head (rev l) = last l.
Proof.
  induction l as [|x l _] using rev_ind; [done|].
  by rewrite rev_app_distr, last_snoc.
Qed.

Lemma head_firstn_S {A} (n : nat) (l : list A) : head (firstn (S n) l) = head l.
Proof. by destruct l. Qed.

Lemma forallb_firstn {A} (p : A → bool) (n : nat) (l : list A) :
  forallb p l = true → forallb p (firstn n l) = true.
Proof.
  revert n. induction l as [|x l IH]; intros [|n]; try done.
  simpl. rewrite !andb_true_iff. intros [Hx Hl]. split; [done|by apply IH].
Qed.

Lemma forallb_filter {A} (p q : A → bool) (l : list A) :
  forallb p l = true → forallb p (List.filter q l) = true.
Proof.
  intros H. apply forallb_forall. intros x Hx%filter_In.
  apply (proj1 (forallb_forall p l) H). tauto.
Qed.

Lemma filterM_is_Some {A} (p : nat → A → option bool) (ok : A → bool)
    (i : nat) (l : list A) :
  (∀ j x, is_Some (p j x) ↔ ok x = true) →
  is_Some (filterM p i l) ↔ forallb ok l = true.
Proof.
  intros Hp. revert i. induction l as [|x l IH]; intros i; [done|].
  cbn [filterM forallb]. rewrite andb_true_iff, <- (IH (S i)), <- (Hp i x).
  destruct (p i x) as [keep|].
  - destruct (filterM p (S i) l).
    + split; [by split|done].
    + split; [by intros [? [=]] | by intros [_ [? [=]]]].
  - split; [by intros [? [=]] | by intros [[? [=]] _]].
Qed.

Lemma filterM_filter {A} (q : A → option bool) (i : nat) (l kept : list A) :
  filterM (λ _, q) i l = Some kept →
  kept = List.filter (λ x, bool_decide (q x = Some true)) l.
Proof.
  revert i kept. induction l as [|x l IH]; intros i kept.
  - by intros [= <-].
  - cbn [filterM List.filter].
    destruct (q x) as [keep|]; [|done].
    destruct (filterM _ (S i) l) as [kept'|] eqn:E; [|done].
    intros [= <-]. rewrite (IH _ _ E). by destruct keep.
Qed.

Lemma filterM_length_mono {A} (p q : nat → A → option bool) (i : nat)
    (l kept kept' : list A) :
  (∀ j x, p j x = Some true → q j x = Some true) →
  filterM p i l = Some kept →
  filterM q i l = Some kept' →
  (length kept ≤ length kept')%nat.
Proof.
  intros Hpq. revert i kept kept'.
  induction l as [|x l IH]; intros i kept kept'.
  - by intros [= <-] [= <-].
  - cbn [filterM].
    destruct (p i x) as [keep|] eqn:Ep; [|done].
    destruct (filterM p (S i) l) as [rest|] eqn:E; [|done].
    destruct (q i x) as [keep'|] eqn:Eq; [|done].
    destruct (filterM q (S i) l) as [rest'|] eqn:E'; [|done].
    intros [= <-] [= <-]. pose proof (IH _ _ _ E E') as Hle.
    destruct keep.
    + rewrite (Hpq _ _ Ep) in Eq. injection Eq as <-. simpl. lia.
    + destruct keep'; simpl; lia.
Qed.

Lemma js_ge_is_Some rt entry k :
  is_Some (js_ge rt (Server.entry_timestamp entry) k)
  ↔ comparable rt entry = true.
Proof.
  unfold js_ge, comparable. rewrite bool_decide_eq_true, fmap_is_Some. done.
Qed.

Lemma run_general rt reqs latestData :
  Server.run rt reqs (firstn Server.MAX_HISTORY latestData)
  = firstn Server.MAX_HISTORY
      (rev (map (Server.entry_of rt)
                (List.filter (λ req, Server.accepted req.2) reqs))
       ++ latestData).
Proof.
  revert latestData.
  induction reqs as [|[now data] reqs IH]; intros latestData; [done|].
  cbn [Server.run List.filter snd].
  destruct (Server.accepted data) eqn:E.
  - rewrite post_accepted by done. cbn [fst].
    rewrite firstn_cons_firstn, IH. cbn [map rev]. by rewrite <- app_assoc.
  - destruct (post_rejected rt now data
                (firstn Server.MAX_HISTORY latestData) E) as [error ->].
    apply IH.
Qed.

Lemma run_from_init rt reqs :
  Server.run rt reqs Server.latestData_init
  = firstn Server.MAX_HISTORY
      (rev (map (Server.entry_of rt)
                (List.filter (λ req, Server.accepted req.2) reqs))).
Proof.
  unfold Server.latestData_init.
  change (@nil Server.Entry)
    with (firstn Server.MAX_HISTORY (@nil Server.Entry)) at 1.
  by rewrite run_general, app_nil_r.
Qed.

Lemma entry_of_stored rt req :
  Server.accepted req.2 = true → stored (Server.entry_of rt req) = true.
Proof.
  unfold Server.accepted. intros H.
  apply andb_true_iff in H as [H Ha]. apply andb_true_iff in H as [H _].
  apply andb_true_iff in H as [Hn _].
  unfold stored. simpl. rewrite Hn, Ha. simpl.
  apply negb_true_iff, bool_decide_eq_false.
  destruct (Server.data_timestamp req.2) as [| | |[z|negative|]| |];
    simpl; try done.
  - by destruct (z <? 10000000000).
  - by destruct negative.
Qed.

Lemma run_stored rt reqs :
  forallb stored (Server.run rt reqs Server.latestData_init) = true.
Proof.
  rewrite run_from_init. apply forallb_firstn, forallb_forall.
  intros e He. apply in_rev, in_map_iff in He as (req & <- & Hreq).
  apply filter_In in Hreq as [_ Hok]. by apply entry_of_stored.
Qed.

Lemma in_out_partition (l : list Server.Entry) :
  forallb stored l = true →
  (length (List.filter
             (λ e, strict_eq (Server.entry_action e) (JStr "in")) l)
   + length (List.filter
               (λ e, strict_eq (Server.entry_action e) (JStr "out")) l)
   = length l)%nat.
Proof.
  induction l as [|e l IH]; [done|]. simpl. rewrite andb_true_iff.
  intros [He Hl]. specialize (IH Hl).
  unfold stored in He. rewrite !andb_true_iff in He.
  destruct He as [[_ Ha] _].
  apply includes_in_out_spec in Ha as [-> | ->]; simpl; lia.
Qed.

Lemma in_out_exclusive (l : list Server.Entry) :
  (length (List.filter
             (λ e, strict_eq (Server.entry_action e) (JStr "in")) l)
   + length (List.filter
               (λ e, strict_eq (Server.entry_action e) (JStr "out")) l)
   ≤ length l)%nat.
Proof.
  induction l as [|e l IH]; [done|]. simpl.
  rewrite !strict_eq_str.
  destruct (bool_decide (Server.entry_action e = JStr "in")) eqn:E1;
    destruct (bool_decide (Server.entry_action e = JStr "out")) eqn:E2;
    simpl; try lia.
  apply bool_decide_eq_true in E1, E2. congruence.
Qed.

Lemma stats_is_Some rt now later latestData :
  is_Some (Server.get_api_stats rt now later latestData)
  ↔ forallb (comparable rt) latestData = true.
Proof.
  unfold Server.get_api_stats.
  pose proof (filterM_is_Some
                (λ _ entry, js_ge rt (Server.entry_timestamp entry)
                                  (localMidnight rt now))
                (comparable rt) 0 latestData
                (λ _ x, js_ge_is_Some rt x _)) as H1.
  pose proof (filterM_is_Some
                (λ i entry, js_ge rt (Server.entry_timestamp entry)
                                  (later i - 24 * 60 * 60 * 1000))
                (comparable rt) 0 latestData
                (λ _ x, js_ge_is_Some rt x _)) as H2.
  destruct (filterM _ 0 latestData) as [todayEntries|].
  - destruct (filterM _ 0 latestData) as [last24h|].
    + split; [intros _; by apply H1 | done].
    + split; [by intros [? [=]] | intros H; by apply H2 in H as [? [=]]].
  - split; [by intros [? [=]] | intros H; by apply H1 in H as [? [=]]].
Qed.

(** X1. Whatever requests the server receives, valid or not, from its
    start, the store holds the entries of the accepted ones only, newest
    first, cut to the last 100; the count that [GET /api/data] reports is
    the number of accepted requests, capped at 100. *)
Theorem Server_run_skips_rejected rt reqs :
  let accepted := List.filter (λ req, Server.accepted req.2) reqs in
  Server.run rt reqs Server.latestData_init
  = firstn Server.MAX_HISTORY (rev (map (Server.entry_of rt) accepted))
  ∧ (Server.get_api_data (Server.run rt reqs Server.latestData_init)).1
    = (length accepted `min` Server.MAX_HISTORY)%nat.
Proof.
  intros accepted. split; [apply run_from_init|].
  simpl. rewrite run_from_init, length_take, length_rev, length_map.
  fold accepted. lia.
Qed.

(** X2. [GET /api/data/latest] answers with the entry of the last
    accepted request, and with null as long as none was accepted;
    requests that were rejected in between do not show. *)
Theorem Server_latest_is_last_accepted rt reqs :
  Server.get_api_data_latest (Server.run rt reqs Server.latestData_init)
  = last (map (Server.entry_of rt)
              (List.filter (λ req, Server.accepted req.2) reqs)).
Proof.
  unfold Server.get_api_data_latest. rewrite run_from_init.
  unfold Server.MAX_HISTORY. by rewrite head_firstn_S, head_rev_last.
Qed.

(** X3. Every entry the server retains has a truthy name, the action
    'in' or 'out', and a timestamp that is no longer a string (strings are
    replaced by the number they parse to, NaN included). *)
Theorem Server_store_wellformed rt reqs entry :
  entry ∈ Server.run rt reqs Server.latestData_init →
  truthy (Server.entry_name entry) = true
  ∧ (Server.entry_action entry = JStr "in"
     ∨ Server.entry_action entry = JStr "out")
  ∧ typeof (Server.entry_timestamp entry) ≠ TString.
Proof.
  intros Hin%list_elem_of_In.
  pose proof (proj1 (forallb_forall _ _) (run_stored rt reqs) _ Hin) as H.
  unfold stored in H. rewrite !andb_true_iff in H.
  destruct H as [[Hn Ha] Ht]. split; [done|]. split.
  - by apply includes_in_out_spec.
  - by apply negb_true_iff, bool_decide_eq_false in Ht.
Qed.

Lemma Server_store_wellformed_witness :
  truthy (JStr "Alice") = true
  ∧ (JStr "in" = JStr "in" ∨ JStr "in" = JStr "out")
  ∧ typeof (JNum (Finite 1710000000000)) ≠ TString.
Proof.
  apply (Server_store_wellformed utcRuntime [(1710000000500, aliceIn)]
           {| Server.entry_name := JStr "Alice";
              Server.entry_action := JStr "in";
              Server.entry_timestamp := JNum (Finite 1710000000000);
              Server.receivedAt := 1710000000500 |}).
  vm_compute. apply list_elem_of_here.
Defined.

(** X4. [GET /api/stats] answers with statistics exactly when every
    retained timestamp can be compared with a number (otherwise the
    comparison raises and the answer is the error 500).  On the store of
    a running server the statistics it answers with add up: the sign-ins
    and the sign-outs of today are together all the entries dated at or
    after today's local midnight, which are at most the total, which is at
    most 100. *)
Theorem Server_stats_add_up rt now later reqs :
  let latestData := Server.run rt reqs Server.latestData_init in
  (is_Some (Server.get_api_stats rt now later latestData)
   ↔ forallb (comparable rt) latestData = true)
  ∧ ∀ stats,
      Server.get_api_stats rt now later latestData = Some stats →
      (Server.signInsToday stats + Server.signOutsToday stats
       = length (List.filter
                   (λ e, bool_decide
                           (js_ge rt (Server.entry_timestamp e)
                                  (localMidnight rt now) = Some true))
                   latestData))%nat
      ∧ (Server.signInsToday stats + Server.signOutsToday stats
         ≤ Server.totalEntries stats)%nat
      ∧ Server.totalEntries stats = length latestData
      ∧ (Server.totalEntries stats ≤ 100)%nat.
Proof.
  intros latestData. split; [apply stats_is_Some|].
  intros stats. unfold Server.get_api_stats.
  destruct (filterM _ 0 latestData) as [todayEntries|] eqn:Etoday; [|done].
  match goal with
  | |- context [filterM ?p 0%nat latestData] =>
      destruct (filterM p 0%nat latestData) as [last24h|]; [|done]
  end.
  intros [= <-].
  cbn [Server.signInsToday Server.signOutsToday Server.totalEntries].
  apply (filterM_filter
           (λ entry, js_ge rt (Server.entry_timestamp entry)
                           (localMidnight rt now))) in Etoday.
  assert (Hsum : (length (List.filter
                            (λ e, strict_eq (Server.entry_action e) (JStr "in"))
                            todayEntries)
                  + length (List.filter
                              (λ e, strict_eq (Server.entry_action e)
                                              (JStr "out")) todayEntries)
                  = length todayEntries)%nat).
  { apply in_out_partition. rewrite Etoday.
    apply forallb_filter, run_stored. }
  rewrite Hsum, Etoday. split; [done|]. split.
  - apply List.filter_length_le.
  - split; [done|]. unfold latestData.
    rewrite run_from_init, length_take. unfold Server.MAX_HISTORY. lia.
Qed.

Lemma Server_stats_add_up_witness :
  Server.get_api_stats utcRuntime 1710028802000 (λ _, 1710028802003)
    aroundMidnight
  = Some {| Server.totalEntries := 2; Server.signInsToday := 1;
            Server.signOutsToday := 0; Server.entriesLast24h := 2 |}
  ∧ (1 + 0 ≤ 2)%nat.
Proof.
  split; [reflexivity|].
  apply (proj1 (proj2 (proj2 (Server_stats_add_up utcRuntime 1710028802000
           (λ _, 1710028802003)
           [(1710028700000,
             {| Server.data_name := JStr "Alice";
                Server.data_action := JStr "in";
                Server.data_timestamp := JNum (Finite 1710028799) |});
            (1710028700100,
             {| Server.data_name := JStr "Bob";
                Server.data_action := JStr "in";
                Server.data_timestamp := JNum (Finite 1710028801) |})])
           {| Server.totalEntries := 2; Server.signInsToday := 1;
              Server.signOutsToday := 0; Server.entriesLast24h := 2 |}
           eq_refl))).
Defined.

(** X5. When the local day is not longer than 24 hours at the instants
    the clock is read (its midnight is at most 24 hours before each
    reading), the sign-ins and sign-outs of today are among the entries of
    the last 24 hours in the statistics the server answers with, for any
    store. *)
Theorem Server_today_within_last24h rt now later latestData stats :
  (∀ i : nat, later i - 24 * 60 * 60 * 1000 ≤ localMidnight rt now) →
  Server.get_api_stats rt now later latestData = Some stats →
  (Server.signInsToday stats + Server.signOutsToday stats
   ≤ Server.entriesLast24h stats)%nat.
Proof.
  intros Hday. unfold Server.get_api_stats.
  destruct (filterM _ 0 latestData) as [todayEntries|] eqn:Etoday; [|done].
  match goal with
  | |- context [filterM ?p 0%nat latestData] =>
      destruct (filterM p 0%nat latestData) as [last24h|] eqn:Elast; [|done]
  end.
  intros [= <-].
  cbn [Server.signInsToday Server.signOutsToday Server.entriesLast24h].
  etrans; [apply in_out_exclusive|].
  apply (filterM_length_mono _ _ 0%nat latestData _ _) with (2 := Etoday)
                                                        (3 := Elast).
  intros j e. unfold js_ge, num_ge.
  destruct (toNumber rt (Server.entry_timestamp e)) as [[t|negative|]|];
    try done.
  cbn [fmap option_fmap option_map]. intros [= Ht%Z.leb_le]. f_equal.
  apply Z.leb_le. specialize (Hday j). lia.
Qed.

Lemma Server_today_within_last24h_witness :
  (1 + 0 ≤ 2)%nat.
Proof.
  apply (Server_today_within_last24h utcRuntime 1710028802000
           (λ _, 1710028802003) aroundMidnight
           {| Server.totalEntries := 2; Server.signInsToday := 1;
              Server.signOutsToday := 0; Server.entriesLast24h := 2 |}).
  - intros _. vm_compute. discriminate.
  - reflexivity.
Defined.

(** ** Further properties of the timestamp conversions *)

Lemma fallback_valid (now : Z) (date : Number) :
  isNaN (if isNaN date then Finite now else date) = false.
Proof. by destruct date. Qed.

Lemma dateOrNow_valid rt now timestamp x :
  Dashboard3.dateOrNow rt now timestamp = Some x → isNaN x = false.
Proof.
  unfold Dashboard3.dateOrNow. destruct (newDate rt timestamp); [|done].
  intros [= <-]. apply fallback_valid.
Qed.

Lemma parseTimestamp_as_is rt now z :
  z ≠ 0 →
  z ≤ 1000000000 ∨ 10000000000 ≤ z →
  Z.abs z ≤ 8640000000000000 →
  Dashboard3.parseTimestamp rt now (JNum (Finite z)) = Some (Finite z).
Proof.
  intros Hz Hout Hrange.
  unfold Dashboard3.parseTimestamp, Dashboard3.dateOrNow. cbn [truthy].
  replace (z =? 0) with false by (symmetry; apply Z.eqb_neq; lia).
  cbn [negb num_gt num_lt].
  replace ((1000000000 <? z) && (z <? 10000000000)) with false
    by (symmetry; apply andb_false_iff; rewrite Z.ltb_ge, Z.ltb_ge; lia).
  cbn [newDate toNumber fmap option_fmap option_map].
  rewrite TimeClip_in_range by done.
  by destruct (1000000000000 <? z).
Qed.

(** X6. The device dashboard's [parseTimestamp] raises in one case only:
    an object that [new Date] cannot convert.  When it returns, the date
    is invalid in one case only: a number above 8.64e15 (positive infinity
    included), which passes the milliseconds test and skips the fall-back
    to the current instant.  Every other input, whatever its type, gives a
    valid date. *)
Theorem parseTimestamp_invalid_iff rt now timestamp :
  (Dashboard3.parseTimestamp rt now timestamp = None
   ↔ ∃ r, timestamp = JObj r ∧ objDate rt r = None)
  ∧ ∀ x,
      Dashboard3.parseTimestamp rt now timestamp = Some x →
      (isNaN x = true
       ↔ ∃ y, timestamp = JNum y ∧ num_gt y 8640000000000000 = true).
Proof.
  unfold Dashboard3.parseTimestamp.
  destruct (truthy timestamp) eqn:Htr; cbn [negb].
  - destruct timestamp as [| |b|y|s|r]; try discriminate.
    + split; [split; [done | by intros (r & [=] & _)]|].
      intros x Hx%dateOrNow_valid. rewrite Hx.
      split; [done | by intros (y & [=] & _)].
    + split.
      { split; [|by intros (r & [=] & _)].
        unfold Dashboard3.dateOrNow. cbn [newDate toNumber].
        destruct (_ && _); [done|]. by destruct (num_gt y 1000000000000). }
      intros x. destruct y as [z|negative|]; [| |done].
      * cbn [num_gt num_lt num_mul].
        destruct ((1000000000 <? z) && (z <? 10000000000)) eqn:E1.
        -- apply andb_true_iff in E1 as [H1%Z.ltb_lt H2%Z.ltb_lt].
           cbn [newDate toNumber fmap option_fmap option_map].
           rewrite roundDouble_exact by lia.
           rewrite TimeClip_in_range by lia. intros [= <-].
           split; [done|]. intros (y & [= <-] & Hy%Z.ltb_lt). lia.
        -- destruct (1000000000000 <? z) eqn:E2.
           ++ apply Z.ltb_lt in E2.
              cbn [newDate toNumber fmap option_fmap option_map].
              destruct (decide (z ≤ 8640000000000000)).
              ** rewrite TimeClip_in_range by lia. intros [= <-].
                 split; [done|]. intros (y & [= <-] & Hy%Z.ltb_lt). lia.
              ** rewrite TimeClip_out_of_range by lia. intros [= <-].
                 split; [|done]. intros _. eexists. split; [done|].
                 apply Z.ltb_lt. lia.
           ++ apply Z.ltb_ge in E2. intros Hx%dateOrNow_valid. rewrite Hx.
              split; [done|]. intros (y & [= <-] & Hy%Z.ltb_lt). lia.
      * destruct negative; cbn [num_gt num_lt negb andb].
        -- intros Hx%dateOrNow_valid. rewrite Hx.
           split; [done|]. by intros (y & [= <-] & Hy).
        -- cbn [newDate toNumber fmap option_fmap option_map TimeClip].
           intros [= <-]. split; [|done]. intros _. by eexists.
    + split; [split; [done | by intros (r & [=] & _)]|].
      intros x Hx%dateOrNow_valid. rewrite Hx.
      split; [done | by intros (y & [=] & _)].
    + split.
      { unfold Dashboard3.dateOrNow. cbn [newDate].
        destruct (objDate rt r) eqn:E.
        - split; [done|]. intros (r' & [= <-] & Hr). congruence.
        - split; [|done]. intros _. by exists r. }
      intros x Hx%dateOrNow_valid. rewrite Hx.
      split; [done | by intros (y & [=] & _)].
  - split; [split; [done|]|].
    + intros (r & -> & _). done.
    + intros x [= <-]. split; [done|].
      intros (y & -> & Hy). destruct y as [z|[]|]; try done.
      simpl in Htr, Hy. apply negb_false_iff, Z.eqb_eq in Htr.
      apply Z.ltb_lt in Hy. lia.
Qed.

Lemma parseTimestamp_invalid_iff_witness :
  isNaN NaN = true.
Proof.
  apply (proj2 (proj2 (parseTimestamp_invalid_iff utcRuntime 1710000000500
                         (JNum (Finite 9000000000000000))) NaN eq_refl)).
  exists (Finite 9000000000000000). split; reflexivity.
Defined.

(** X7. The server and the device dashboard read an integer timestamp
    above 1,000,000,000 (and within the range of dates) as the same
    instant.  At or below 1,000,000,000 they differ: the server takes the
    number as seconds and multiplies it by 1000 (exactly so from
    -9,007,199,254,740 on, where the product is below 2^53 in size), the
    device dashboard takes it as milliseconds. *)
Theorem normalizers_agree_above_1e9 rt now z :
  (1000000000 < z ≤ 8640000000000000 →
   JNum <$> Dashboard3.parseTimestamp rt now (JNum (Finite z))
   = Some (Server.normalize rt (JNum (Finite z))))
  ∧ (-9007199254740 ≤ z ≤ 1000000000 → z ≠ 0 →
     Server.normalize rt (JNum (Finite z)) = JNum (Finite (z * 1000))
     ∧ Dashboard3.parseTimestamp rt now (JNum (Finite z)) = Some (Finite z)).
Proof.
  split.
  - intros [Hlo Hhi]. unfold Server.normalize.
    cbn [typeof num_lt num_mul].
    destruct (z <? 10000000000) eqn:E.
    + apply Z.ltb_lt in E. rewrite parseTimestamp_seconds by lia.
      cbn [bool_decide decide_rel andb].
      rewrite roundDouble_exact by lia. done.
    + apply Z.ltb_ge in E. by rewrite parseTimestamp_as_is by lia.
  - intros [Hlo Hhi] Hz0. split.
    + unfold Server.normalize. cbn [typeof num_lt num_mul].
      rewrite (proj2 (Z.ltb_lt z 10000000000)) by lia.
      cbn [bool_decide decide_rel andb].
      by rewrite roundDouble_exact by lia.
    + apply parseTimestamp_as_is; lia.
Qed.

Lemma normalizers_agree_above_1e9_witness :
  JNum <$> Dashboard3.parseTimestamp utcRuntime 5 (JNum (Finite 1710000000))
  = Some (Server.normalize utcRuntime (JNum (Finite 1710000000)))
  ∧ Server.normalize utcRuntime (JNum (Finite 999999999))
    = JNum (Finite (999999999 * 1000))
  ∧ Dashboard3.parseTimestamp utcRuntime 5 (JNum (Finite 999999999))
    = Some (Finite 999999999).
Proof.
  split.
  - apply (proj1 (normalizers_agree_above_1e9 utcRuntime 5 1710000000)). lia.
  - apply (proj2 (normalizers_agree_above_1e9 utcRuntime 5 999999999)); lia.
Defined.

(** X8. The server dashboard shows an integer timestamp at the instant
    the server stored it: what the server's normalization makes of an
    integer between -8.64e12 and 8.64e15 is a number of milliseconds that
    the dashboard's conversion turns into the date of that very instant,
    whenever it is fetched. *)
Theorem dashboard_shows_stored_instant rt now z :
  -8640000000000 ≤ z ≤ 8640000000000000 →
  ∃ t, Server.normalize rt (JNum (Finite z)) = JNum (Finite t)
       ∧ t = (if z <? 10000000000 then z * 1000 else z)
       ∧ Dashboard2.convert rt now (JNum (Finite t)) = Finite t.
Proof.
  intros [Hlo Hhi]. unfold Server.normalize, Dashboard2.convert.
  cbn [typeof num_lt num_mul].
  destruct (z <? 10000000000) eqn:E.
  - apply Z.ltb_lt in E. exists (z * 1000).
    cbn [bool_decide decide_rel andb].
    rewrite roundDouble_exact by lia.
    split; [done|]. split; [done|].
    apply TimeClip_in_range. lia.
  - exists z. split; [done|]. split; [done|].
    apply TimeClip_in_range. lia.
Qed.

Lemma dashboard_shows_stored_instant_witness :
  ∃ t, Server.normalize utcRuntime (JNum (Finite 1710000000)) = JNum (Finite t)
       ∧ t = (if 1710000000 <? 10000000000 then 1710000000 * 1000
              else 1710000000)
       ∧ Dashboard2.convert utcRuntime 1710000003900 (JNum (Finite t))
         = Finite t.
Proof.
  apply (dashboard_shows_stored_instant utcRuntime 1710000003900 1710000000).
  lia.
Defined.

(** ** Further properties of the device dashboard *)

Lemma accepts_cases rt now data :
  Dashboard3_accepts rt (now, data) = true
  ↔ ∃ c a start,
      truthy (Dashboard3.data_name data) = true
      ∧ Dashboard3.data_action data = JStr (String c a)
      ∧ Dashboard3.parseTimestamp rt now
          (js_or (Dashboard3.data_timestamp data) (Dashboard3.data_time data))
        = Some start.
Proof.
  unfold Dashboard3_accepts. cbn [fst snd]. split.
  - intros [[Hn Ha]%andb_true_iff [start Hs]%bool_decide_eq_true]%andb_true_iff.
    destruct (Dashboard3.data_action data) as [| | | |[|c a]|]; try done.
    by exists c, a, start.
  - intros (c & a & start & -> & -> & Hs). cbn [andb negb String.eqb].
    apply bool_decide_eq_true. by exists start.
Qed.

Lemma processData_rejects rt now data st :
  Dashboard3_accepts rt (now, data) = false →
  (Dashboard3.processData rt now data st).1 = st.
Proof.
  intros Hno.
  destruct (processData_cases rt now data st)
    as [|(a & start & Hn & Ht & Ha & Hs)]; [done|].
  assert (Dashboard3_accepts rt (now, data) = true); [|congruence].
  apply accepts_cases. rewrite Ha in Ht. destruct a as [|c a]; [done|].
  by exists c, a, start.
Qed.

Lemma processData_accepts rt now data st :
  Dashboard3_accepts rt (now, data) = true →
  (Dashboard3.processData rt now data st).1
  = Dashboard3.record (Dashboard3_entry rt (now, data)) st.
Proof.
  intros (c & a & start & Hn & Ha & Hs)%accepts_cases.
  rewrite (processData_writes rt now data (String c a) start st Hn
             ltac:(by rewrite Ha) Ha Hs).
  unfold Dashboard3_entry. cbn [fst snd]. by rewrite Ha, Hs.
Qed.

Lemma record_effect entry st :
  let st' := Dashboard3.record entry st in
  Dashboard3.activityHistory st'
  = firstn 50 (entry :: Dashboard3.activityHistory st)
  ∧ Dashboard3.totalEntries (Dashboard3.statistics st')
    = S (Dashboard3.totalEntries (Dashboard3.statistics st))
  ∧ Dashboard3.signInsToday (Dashboard3.statistics st')
    = (if String.eqb (Dashboard3.entry_action entry) "in"
       then S (Dashboard3.signInsToday (Dashboard3.statistics st))
       else Dashboard3.signInsToday (Dashboard3.statistics st))
  ∧ Dashboard3.signOutsToday (Dashboard3.statistics st')
    = (if String.eqb (Dashboard3.entry_action entry) "in"
       then Dashboard3.signOutsToday (Dashboard3.statistics st)
       else if String.eqb (Dashboard3.entry_action entry) "out"
       then S (Dashboard3.signOutsToday (Dashboard3.statistics st))
       else Dashboard3.signOutsToday (Dashboard3.statistics st)).
Proof.
  unfold Dashboard3.record.
  destruct (String.eqb (Dashboard3.entry_action entry) "in");
    [|destruct (String.eqb (Dashboard3.entry_action entry) "out")];
    cbn; by rewrite trim_firstn.
Qed.

Lemma Dashboard3_run_general rt inputs st history :
  Dashboard3.activityHistory st = firstn 50 history →
  let accepted := List.filter (Dashboard3_accepts rt) inputs in
  let st' := Dashboard3.run rt inputs st in
  Dashboard3.activityHistory st'
  = firstn 50 (rev (map (Dashboard3_entry rt) accepted) ++ history)
  ∧ Dashboard3.totalEntries (Dashboard3.statistics st')
    = (Dashboard3.totalEntries (Dashboard3.statistics st)
       + length accepted)%nat
  ∧ (Dashboard3.signInsToday (Dashboard3.statistics st')
     + Dashboard3.signOutsToday (Dashboard3.statistics st')
     ≤ Dashboard3.signInsToday (Dashboard3.statistics st)
       + Dashboard3.signOutsToday (Dashboard3.statistics st)
       + length accepted)%nat.
Proof.
  revert st history.
  induction inputs as [|[now data] inputs IH]; intros st history Hst;
    cbn zeta.
  { cbn [Dashboard3.run List.filter map rev app length]. rewrite Hst.
    repeat split; lia. }
  cbn [Dashboard3.run List.filter].
  destruct (Dashboard3_accepts rt (now, data)) eqn:E.
  - rewrite (processData_accepts rt now data st E).
    destruct (record_effect (Dashboard3_entry rt (now, data)) st)
      as (Hh & Ht & Hi & Ho).
    cbn zeta in Hh, Ht, Hi, Ho.
    destruct (IH (Dashboard3.record (Dashboard3_entry rt (now, data)) st)
                 (Dashboard3_entry rt (now, data) :: history))
      as (IHh & IHt & IHio).
    { by rewrite Hh, Hst, firstn_cons_firstn. }
    cbn zeta in IHh, IHt, IHio.
    rewrite IHh, IHt, Ht. cbn [map rev length]. rewrite <- app_assoc.
    split; [done|]. split; [lia|].
    etrans; [apply IHio|]. rewrite Hi, Ho.
    destruct (String.eqb _ "in"); [lia|]. destruct (String.eqb _ "out"); lia.
  - rewrite (processData_rejects rt now data st E). by apply IH.
Qed.

(** X9. On the device dashboard, after any sequence of fetched data from
    its start: the activity history holds the entries of the data that
    [processData] got to its writes for (a truthy name, an action that is
    a non-empty string, a timestamp that [parseTimestamp] does not raise
    on), newest first, cut to the last 50; the counter totalEntries is the
    number of all of them, so the history has min(50, totalEntries)
    entries; and the sign-in and sign-out counters together never exceed
    totalEntries.  Data that is ignored, or that makes [processData] raise
    before its writes, leaves no trace. *)
Theorem Dashboard3_counters_and_history rt inputs :
  let accepted := List.filter (Dashboard3_accepts rt) inputs in
  let st := Dashboard3.run rt inputs Dashboard3.STATE_init in
  Dashboard3.activityHistory st
  = firstn 50 (rev (map (Dashboard3_entry rt) accepted))
  ∧ Dashboard3.totalEntries (Dashboard3.statistics st) = length accepted
  ∧ length (Dashboard3.activityHistory st)
    = (Dashboard3.totalEntries (Dashboard3.statistics st) `min` 50)%nat
  ∧ (Dashboard3.signInsToday (Dashboard3.statistics st)
     + Dashboard3.signOutsToday (Dashboard3.statistics st)
     ≤ Dashboard3.totalEntries (Dashboard3.statistics st))%nat.
Proof.
  intros accepted st.
  destruct (Dashboard3_run_general rt inputs Dashboard3.STATE_init []
              eq_refl) as (Hh & Ht & Hio).
  cbn zeta in Hh, Ht, Hio. fold accepted st in Hh, Ht, Hio.
  rewrite app_nil_r in Hh. simpl in Ht, Hio.
  split; [done|]. split; [done|]. split; [|lia].
  rewrite Hh, Ht, length_take, length_rev, length_map. lia.
Qed.

(** X10. The dashboards do not check the action literal.  When the
    device dashboard gets to its writes for data whose action lower-cases
    to neither 'in' nor 'out', the entry enters the history and
    totalEntries grows, while the sessions and the sign-in and sign-out
    counters stay.  The server dashboard compares the action as it is, so
    an entry it stores whose action is not exactly 'in' or 'out' enters
    the history and leaves the sessions as they were. *)
Theorem dashboards_record_unknown_actions :
  (∀ rt now data st,
      Dashboard3_accepts rt (now, data) = true →
      (∀ a, Dashboard3.data_action data = JStr a →
            toLowerCase rt a ≠ "in" ∧ toLowerCase rt a ≠ "out") →
      let st' := (Dashboard3.processData rt now data st).1 in
      head (Dashboard3.activityHistory st')
      = Some (Dashboard3_entry rt (now, data))
      ∧ Dashboard3.activeSessions st' = Dashboard3.activeSessions st
      ∧ Dashboard3.totalEntries (Dashboard3.statistics st')
        = S (Dashboard3.totalEntries (Dashboard3.statistics st))
      ∧ Dashboard3.signInsToday (Dashboard3.statistics st')
        = Dashboard3.signInsToday (Dashboard3.statistics st)
      ∧ Dashboard3.signOutsToday (Dashboard3.statistics st')
        = Dashboard3.signOutsToday (Dashboard3.statistics st))
  ∧ (∀ rt now data st,
      Dashboard2.stores rt now data st = true →
      Dashboard2.data_action data ≠ JStr "in" →
      Dashboard2.data_action data ≠ JStr "out" →
      Dashboard2.processEntry rt now data st
      = ({| Dashboard2.activeSessions := Dashboard2.activeSessions st;
            Dashboard2.activityHistory :=
              firstn 50 (Dashboard2.entry_of rt now data
                         :: Dashboard2.activityHistory st) |},
         Processed)).
Proof.
  split.
  - intros rt now data st Hok Hact st'.
    pose proof Hok as (c & a & start & Hn & Ha & Hs)%accepts_cases.
    destruct (Hact _ Ha) as [Hin%String.eqb_neq Hout%String.eqb_neq].
    unfold st'. rewrite (processData_accepts rt now data st Hok).
    destruct (record_effect (Dashboard3_entry rt (now, data)) st)
      as (Hh & Ht & Hi & Ho).
    cbn zeta in Hh, Ht, Hi, Ho.
    assert (Hact' : Dashboard3.entry_action (Dashboard3_entry rt (now, data))
                    = toLowerCase rt (String c a)).
    { unfold Dashboard3_entry. cbn [snd Dashboard3.entry_action].
      by rewrite Ha. }
    rewrite Hact', Hin in Hi, Ho. rewrite Hout in Ho.
    split; [by rewrite Hh|].
    split; [by rewrite record_sessions, Hact', Hin, Hout|]. done.
  - intros rt now data st Hstores Hin Hout.
    rewrite (processEntry_stores rt now data st Hstores). f_equal. f_equal.
    rewrite (processEntry_sessions rt now data st Hstores), !strict_eq_str.
    by rewrite !bool_decide_eq_false_2.
Qed.

Lemma dashboards_record_unknown_actions_witness :
  Dashboard2.processEntry utcRuntime 1710000009900
    (aliceFetched "IN" (JNum (Finite 1710000009000))) aliceInShown
  = ({| Dashboard2.activeSessions := Dashboard2.activeSessions aliceInShown;
        Dashboard2.activityHistory :=
          firstn 50 (Dashboard2.entry_of utcRuntime 1710000009900
                       (aliceFetched "IN" (JNum (Finite 1710000009000)))
                     :: Dashboard2.activityHistory aliceInShown) |},
     Processed)
  ∧ Dashboard3.activeSessions
      (Dashboard3.processData utcRuntime 1710000000500
         (aliceDevice "Break" (JNum (Finite 1710000000))) aliceInDevice).1
    = Dashboard3.activeSessions aliceInDevice.
Proof.
  split.
  - apply (proj2 dashboards_record_unknown_actions utcRuntime 1710000009900
             (aliceFetched "IN" (JNum (Finite 1710000009000))) aliceInShown);
      [reflexivity | discriminate | discriminate].
  - apply (proj1 dashboards_record_unknown_actions utcRuntime 1710000000500
             (aliceDevice "Break" (JNum (Finite 1710000000))) aliceInDevice).
    + reflexivity.
    + intros a [= <-]. split; discriminate.
Defined.

(** ** Further properties of the server dashboard *)

Lemma isDuplicate_clash data timestamp history :
  Dashboard2.isDuplicate data timestamp history
  = existsb (λ retained,
               clash retained
                 {| Dashboard2.entry_name := Dashboard2.data_name data;
                    Dashboard2.entry_action := Dashboard2.data_action data;
                    Dashboard2.entry_timestamp := timestamp |}) history.
Proof. done. Qed.

Lemma isDuplicate_found rt now data history :
  Dashboard2.isDuplicate data
    (Dashboard2.convert rt now (Dashboard2.data_timestamp data)) history
  = true
  → ∃ t, Dashboard2.convert rt now (Dashboard2.data_timestamp data) = Finite t
         ∧ Spec.duplicateOf (Dashboard2.data_name data)
             (Dashboard2.data_action data) t 1000
             (Dashboard2_events history).
Proof.
  intros (e & Hin & He)%existsb_exists.
  apply andb_true_iff in He as [He Ht]. apply andb_true_iff in He as [Hn Ha].
  apply strict_eq_eq in Hn, Ha.
  destruct (Dashboard2.entry_timestamp e) as [t0| |] eqn:E0; [|done..].
  destruct (Dashboard2.convert rt now _) as [t| |]; [|done..].
  exists t. split; [done|]. exists t0. split.
  - apply list_elem_of_In, in_map_iff. exists e. by rewrite Hn, Ha, E0.
  - by apply Z.ltb_lt in Ht.
Qed.

Lemma processEntry_cases rt now data st :
  Dashboard2.processEntry rt now data st
  = if negb (Dashboard2_valid data)
       || Dashboard2.isDuplicate data
            (Dashboard2.convert rt now (Dashboard2.data_timestamp data))
            (Dashboard2.activityHistory st)
    then (st, Ignored)
    else if printable rt (Dashboard2.data_name data)
            && printable rt (Dashboard2.data_action data)
    then ({| Dashboard2.activeSessions :=
               Dashboard2.activeSessions
                 (Dashboard2.processEntry rt now data st).1;
             Dashboard2.activityHistory :=
               firstn 50 (Dashboard2.entry_of rt now data
                          :: Dashboard2.activityHistory st) |},
          Processed)
    else (st, Threw).
Proof.
  unfold Dashboard2.processEntry, Dashboard2_valid.
  destruct (truthy (Dashboard2.data_name data)),
    (truthy (Dashboard2.data_action data)); try done.
  cbn [negb orb andb].
  destruct (Dashboard2.isDuplicate _ _ _); [done|].
  destruct (printable rt (Dashboard2.data_name data)
            && printable rt (Dashboard2.data_action data)); [|done].
  cbn [negb fst Dashboard2.activeSessions]. by rewrite trim_firstn.
Qed.

(** X11. [processEntry] drops a valid entry exactly when the history
    matches it: its test finds a duplicate if and only if the entry's
    timestamp is a valid date and the history holds an entry of the same
    name and action less than 1000 ms from it; the entry is then ignored.
    In every other case, among them an entry whose timestamp is an invalid
    date, the entry is put at the front of the history when its name and
    its action convert to strings, and [processEntry] raises before any
    write when they do not. *)
Theorem processEntry_drops_exactly_duplicates rt now data st :
  Dashboard2_valid data = true →
  let timestamp :=
    Dashboard2.convert rt now (Dashboard2.data_timestamp data) in
  let duplicate :=
    Dashboard2.isDuplicate data timestamp (Dashboard2.activityHistory st) in
  let convertible :=
    printable rt (Dashboard2.data_name data)
    && printable rt (Dashboard2.data_action data) in
  (duplicate = true
   ↔ ∃ t, timestamp = Finite t
          ∧ Spec.duplicateOf (Dashboard2.data_name data)
              (Dashboard2.data_action data) t 1000
              (Dashboard2_events (Dashboard2.activityHistory st)))
  ∧ (duplicate = true →
     Dashboard2.processEntry rt now data st = (st, Ignored))
  ∧ (duplicate = false → convertible = true →
     Dashboard2.activityHistory (Dashboard2.processEntry rt now data st).1
     = firstn 50 (Dashboard2.entry_of rt now data
                  :: Dashboard2.activityHistory st)
     ∧ (Dashboard2.processEntry rt now data st).2 = Processed)
  ∧ (duplicate = false → convertible = false →
     Dashboard2.processEntry rt now data st = (st, Threw))
  ∧ (timestamp = NaN → duplicate = false).
Proof.
  intros Hvalid timestamp duplicate convertible.
  pose proof Hvalid as [Hn Ha]%andb_true_iff.
  pose proof (processEntry_cases rt now data st) as Hcases.
  rewrite Hvalid in Hcases. cbn [negb orb] in Hcases.
  fold timestamp duplicate convertible in Hcases.
  split; [split|].
  - apply isDuplicate_found.
  - intros (t & Ht & Hdup). by apply (isDuplicate_of rt now data _ t).
  - split; [by intros E; rewrite E in Hcases|].
    split; [intros E1 E2; rewrite E1, E2 in Hcases; by rewrite Hcases|].
    split; [by intros E1 E2; rewrite E1, E2 in Hcases|].
    intros Hnan. destruct duplicate eqn:E; [|done].
    apply (isDuplicate_found rt now data) in E as (t & Ht & _).
    unfold timestamp in Hnan. congruence.
Qed.

Lemma processEntry_drops_exactly_duplicates_witness :
  Dashboard2.activityHistory
    (Dashboard2.processEntry utcRuntime 1710000009900
       (aliceFetched "in" (JStr "yesterday-ish")) aliceInShown).1
  = firstn 50 (Dashboard2.entry_of utcRuntime 1710000009900
                 (aliceFetched "in" (JStr "yesterday-ish"))
               :: Dashboard2.activityHistory aliceInShown)
  ∧ (Dashboard2.processEntry utcRuntime 1710000009900
       (aliceFetched "in" (JStr "yesterday-ish")) aliceInShown).2
    = Processed.
Proof.
  apply (proj1 (proj2 (proj2 (processEntry_drops_exactly_duplicates utcRuntime
                         1710000009900
                         (aliceFetched "in" (JStr "yesterday-ish"))
                         aliceInShown eq_refl))));
    reflexivity.
Defined.

Lemma processEntry_state rt now data st :
  (Dashboard2.processEntry rt now data st).1 = st
  ∨ (Dashboard2.stores rt now data st = true
     ∧ Dashboard2.activityHistory (Dashboard2.processEntry rt now data st).1
       = firstn 50 (Dashboard2.entry_of rt now data
                    :: Dashboard2.activityHistory st)).
Proof.
  destruct (Dashboard2.stores rt now data st) eqn:E.
  - right. split; [done|]. by rewrite (processEntry_stores rt now data st E).
  - left. by apply processEntry_not_stores.
Qed.

(** An entry of the history has a truthy name and a truthy action. *)
Lemma processEntry_valid_entries rt now data st :
  forallb (λ e, truthy (Dashboard2.entry_name e)
                && truthy (Dashboard2.entry_action e))
          (Dashboard2.activityHistory st) = true →
  forallb (λ e, truthy (Dashboard2.entry_name e)
                && truthy (Dashboard2.entry_action e))
          (Dashboard2.activityHistory
             (Dashboard2.processEntry rt now data st).1)
  = true.
Proof.
  intros Hst.
  destruct (processEntry_state rt now data st) as [-> | [E ->]]; [done|].
  apply forallb_firstn. cbn [forallb]. rewrite Hst, andb_true_r.
  apply stores_unfold in E as (Hn & Ha & _). cbn. by rewrite Hn, Ha.
Qed.

Lemma existsb_firstn {A} (p : A → bool) (n : nat) (l : list A) :
  existsb p l = false → existsb p (firstn n l) = false.
Proof.
  revert n. induction l as [|x l IH]; intros [|n]; try done.
  simpl. rewrite !orb_false_iff. intros [Hx Hl]. split; [done|by apply IH].
Qed.

Lemma clashFree_firstn (n : nat) (history : list Dashboard2.Entry) :
  clashFree history = true → clashFree (firstn n history) = true.
Proof.
  revert n. induction history as [|e h IH]; intros [|n]; try done.
  cbn [clashFree firstn]. rewrite !andb_true_iff, !negb_true_iff.
  intros [He Hh]. split; [by apply existsb_firstn | by apply IH].
Qed.

Lemma processEntry_clashFree rt now data st :
  clashFree (Dashboard2.activityHistory st) = true →
  clashFree (Dashboard2.activityHistory
               (Dashboard2.processEntry rt now data st).1)
  = true.
Proof.
  intros Hst.
  destruct (processEntry_state rt now data st) as [-> | [E ->]]; [done|].
  apply clashFree_firstn. cbn [clashFree]. rewrite Hst, andb_true_r.
  apply stores_unfold in E as (_ & _ & E & _).
  rewrite isDuplicate_clash in E. by rewrite negb_true_iff.
Qed.

Lemma processEntry_length rt now data st :
  (length (Dashboard2.activityHistory st) ≤ 50)%nat →
  (length (Dashboard2.activityHistory
             (Dashboard2.processEntry rt now data st).1)
   ≤ 50)%nat.
Proof.
  intros Hst.
  destruct (processEntry_state rt now data st) as [-> | [E ->]]; [done|].
  rewrite length_take. lia.
Qed.

Lemma clashFree_lookup (history : list Dashboard2.Entry) i j later older :
  clashFree history = true →
  (i < j)%nat →
  history !! i = Some later →
  history !! j = Some older →
  clash older later = false.
Proof.
  revert i j. induction history as [|e h IH]; intros i j Hfree Hij Hi Hj;
    [done|].
  cbn [clashFree] in Hfree. apply andb_true_iff in Hfree as [He Hh].
  destruct j as [|j]; [lia|]. destruct i as [|i].
  - injection Hi as ->. simpl in Hj. apply negb_true_iff in He.
    destruct (clash older later) eqn:E; [|done].
    assert (existsb (λ retained, clash retained later) h = true); [|congruence].
    apply existsb_exists. exists older. split; [|done].
    by apply list_elem_of_In, list_elem_of_lookup_2 with j.
  - simpl in Hi, Hj. apply (IH i j); [done|lia|done|done].
Qed.

Lemma processDataBatch_preserves rt (P : Dashboard2.STATE → Prop) :
  (∀ now data st, P st → P (Dashboard2.processEntry rt now data st).1) →
  ∀ dataArray st, P st → P (Dashboard2.processDataBatch rt dataArray st).1.
Proof.
  intros Hstep dataArray.
  induction dataArray as [|[now data] rest IH]; intros st Hst; [done|].
  cbn [Dashboard2.processDataBatch].
  pose proof (Hstep now data st Hst) as H1.
  destruct (Dashboard2.processEntry rt now data st) as [st' []];
    cbn [fst] in *; [by apply IH | by apply IH | done].
Qed.

Lemma Dashboard2_run_preserves rt (P : Dashboard2.STATE → Prop) :
  (∀ now data st, P st → P (Dashboard2.processEntry rt now data st).1) →
  ∀ polls st, P st → P (Dashboard2.run rt polls st).
Proof.
  intros Hstep polls.
  induction polls as [|dataArray polls IH]; intros st Hst; [done|].
  cbn [Dashboard2.run]. by apply IH, processDataBatch_preserves.
Qed.

(** X12. After any sequence of polls, of entries valid or not, from its
    start, the server dashboard's activity history has at most 50 entries,
    each with a truthy name and action, and no two of them have the same
    name, the same action and valid dates less than 1000 ms apart. *)
Theorem Dashboard2_history_invariant rt polls :
  let history :=
    Dashboard2.activityHistory
      (Dashboard2.run rt polls Dashboard2.STATE_init) in
  (length history ≤ 50)%nat
  ∧ (∀ e, e ∈ history →
          truthy (Dashboard2.entry_name e) = true
          ∧ truthy (Dashboard2.entry_action e) = true)
  ∧ (∀ i j later older a b,
        (i < j)%nat →
        history !! i = Some later →
        history !! j = Some older →
        Dashboard2.entry_name later = Dashboard2.entry_name older →
        Dashboard2.entry_action later = Dashboard2.entry_action older →
        Dashboard2.entry_timestamp later = Finite a →
        Dashboard2.entry_timestamp older = Finite b →
        1000 ≤ Z.abs (a - b)).
Proof.
  intros history.
  destruct (Dashboard2_run_preserves rt
              (λ st,
                 (length (Dashboard2.activityHistory st) ≤ 50)%nat
                 ∧ forallb (λ e, truthy (Dashboard2.entry_name e)
                                 && truthy (Dashboard2.entry_action e))
                           (Dashboard2.activityHistory st) = true
                 ∧ clashFree (Dashboard2.activityHistory st) = true))
    with (polls := polls) (st := Dashboard2.STATE_init)
    as (Hlen & Hvalid & Hfree).
  { intros now data st (H1 & H2 & H3).
    split; [by apply processEntry_length|].
    split; [by apply processEntry_valid_entries
           | by apply processEntry_clashFree]. }
  { repeat split; simpl; lia. }
  fold history in Hlen, Hvalid, Hfree.
  split; [done|]. split.
  - intros e He%list_elem_of_In.
    by apply (proj1 (forallb_forall _ _) Hvalid), andb_true_iff in He.
  - intros i j later older a b Hij Hi Hj Hname Hact Ha Hb.
    pose proof (clashFree_lookup history i j later older Hfree Hij Hi Hj)
      as Hclash.
    assert (Hl : truthy (Dashboard2.entry_name older)
                 && truthy (Dashboard2.entry_action older) = true).
    { apply (proj1 (forallb_forall _ _) Hvalid), list_elem_of_In.
      by apply list_elem_of_lookup_2 with j. }
    apply andb_true_iff in Hl as [Hn Hac].
    unfold clash in Hclash. rewrite <- Hname, <- Hact in Hclash.
    rewrite !strict_eq_refl in Hclash
      by (apply truthy_not_NaN; congruence).
    rewrite Ha, Hb in Hclash. simpl in Hclash.
    apply Z.ltb_ge in Hclash. lia.
Qed.

Lemma Dashboard2_history_invariant_witness :
  1000 ≤ Z.abs (1710000002000 - 1710000000000).
Proof.
  apply (proj2 (proj2 (Dashboard2_history_invariant utcRuntime
                         [everySecondFetched 2;
                          skipn 2 (everySecondFetched 3)]))
           0%nat 2%nat
           (Dashboard2.entry_of utcRuntime 0
              (aliceFetched "in" (JNum (Finite 1710000002000))))
           (Dashboard2.entry_of utcRuntime 0
              (aliceFetched "in" (JNum (Finite 1710000000000)))));
    [lia | reflexivity..].
Defined.

Lemma timed_convert rt now data :
  timed rt data = true →
  Dashboard2.convert rt now (Dashboard2.data_timestamp data)
  = Dashboard2.convert rt 0 (Dashboard2.data_timestamp data)
  ∧ ∃ t, Dashboard2.convert rt 0 (Dashboard2.data_timestamp data) = Finite t.
Proof.
  unfold timed, Dashboard2.convert.
  destruct (Dashboard2.data_timestamp data) as [| | |x|s|]; try done;
    intros H%negb_true_iff; (split; [done|]); unfold TimeClip in *.
  - destruct x as [t| |]; try done.
    destruct (Z.abs t <=? 8640000000000000); [by exists t | done].
  - destruct (Date_parse rt s) as [t| |]; try done.
    destruct (Z.abs t <=? 8640000000000000); [by exists t | done].
Qed.

Lemma timed_any_instant rt now now' data st :
  timed rt data = true →
  Dashboard2.processEntry rt now' data st
  = Dashboard2.processEntry rt now data st.
Proof.
  intros Ht. unfold Dashboard2.processEntry.
  destruct (timed_convert rt now data Ht) as [-> _].
  by destruct (timed_convert rt now' data Ht) as [-> _].
Qed.

Lemma settled_noop rt now data st :
  timed rt data = true →
  settled rt data (Dashboard2.activityHistory st) = true →
  Dashboard2.processEntry rt now data st = (st, Ignored).
Proof.
  intros [Hconv _]%(timed_convert rt now) Hs.
  rewrite processEntry_cases, Hconv. unfold settled in Hs. by rewrite Hs.
Qed.

Lemma settled_after rt now data st :
  timed rt data = true →
  (Dashboard2.processEntry rt now data st).2 ≠ Threw →
  settled rt data
    (Dashboard2.activityHistory (Dashboard2.processEntry rt now data st).1)
  = true.
Proof.
  intros Ht. destruct (timed_convert rt now data Ht) as [Hconv [t Hfin]].
  rewrite processEntry_cases, Hconv. unfold settled.
  destruct (Dashboard2_valid data) eqn:Hv; [|done]. cbn [negb orb].
  destruct (Dashboard2.isDuplicate _ _ (Dashboard2.activityHistory st))
    eqn:Hd; [done|].
  destruct (printable rt (Dashboard2.data_name data)
            && printable rt (Dashboard2.data_action data)); [|done].
  intros _. cbn [fst Dashboard2.activityHistory firstn].
  rewrite isDuplicate_clash. cbn [existsb]. apply orb_true_iff. left.
  pose proof Hv as [Hn Ha]%andb_true_iff.
  unfold clash, Dashboard2.entry_of; simpl.
  rewrite !strict_eq_refl by (by apply truthy_not_NaN).
  rewrite Hconv, Hfin. simpl. rewrite Z.sub_diag. done.
Qed.

Lemma threw_state rt now data st :
  (Dashboard2.processEntry rt now data st).2 = Threw →
  Dashboard2.processEntry rt now data st = (st, Threw).
Proof.
  rewrite processEntry_cases.
  destruct (_ || _); [done|]. by destruct (_ && _).
Qed.

Lemma settled_extends rt data (pre history : list Dashboard2.Entry) :
  settled rt data history = true → settled rt data (pre ++ history) = true.
Proof.
  unfold settled. destruct (Dashboard2_valid data); [|done]. simpl.
  unfold Dashboard2.isDuplicate. rewrite existsb_app. intros ->.
  apply orb_true_r.
Qed.

Lemma processEntry_extends rt now data st :
  (length (Dashboard2.activityHistory st) < 50)%nat →
  ∃ pre, Dashboard2.activityHistory (Dashboard2.processEntry rt now data st).1
         = pre ++ Dashboard2.activityHistory st
         ∧ (length pre ≤ 1)%nat.
Proof.
  intros Hlen.
  destruct (processEntry_state rt now data st) as [-> | [E ->]].
  - exists []. split; [done | simpl; lia].
  - exists [Dashboard2.entry_of rt now data]. split; [|simpl; lia].
    rewrite firstn_all2; [done|]. simpl. lia.
Qed.

Lemma processDataBatch_extends rt inputs st :
  (length (Dashboard2.activityHistory st) + length inputs ≤ 50)%nat →
  ∃ pre,
    Dashboard2.activityHistory (Dashboard2.processDataBatch rt inputs st).1
    = pre ++ Dashboard2.activityHistory st.
Proof.
  revert st. induction inputs as [|[now data] inputs IH]; intros st Hlen.
  - by exists [].
  - cbn [Dashboard2.processDataBatch]. cbn [length] in Hlen.
    destruct (processEntry_extends rt now data st) as (pre1 & H1 & Hp);
      [lia|].
    destruct (IH (Dashboard2.processEntry rt now data st).1) as (pre & Hpre).
    { rewrite H1, length_app. lia. }
    destruct (Dashboard2.processEntry rt now data st) as [st' []];
      cbn [fst] in *.
    + exists (pre ++ pre1). by rewrite Hpre, H1, app_assoc.
    + exists (pre ++ pre1). by rewrite Hpre, H1, app_assoc.
    + by exists pre1.
Qed.

Lemma processDataBatch_cons rt now data rest st :
  Dashboard2.processDataBatch rt ((now, data) :: rest) st
  = match Dashboard2.processEntry rt now data st with
    | (st', Threw) => (st', Threw)
    | (st', _) => Dashboard2.processDataBatch rt rest st'
    end.
Proof. done. Qed.

Lemma repoll_general rt inputs again st :
  forallb (λ i, timed rt i.2) inputs = true →
  (length (Dashboard2.activityHistory st) + length inputs ≤ 50)%nat →
  map snd again = map snd inputs →
  (Dashboard2.processDataBatch rt again
     (Dashboard2.processDataBatch rt inputs st).1).1
  = (Dashboard2.processDataBatch rt inputs st).1.
Proof.
  revert again st.
  induction inputs as [|[now data] inputs IH]; intros again st Htimed Hlen Hsame.
  - by destruct again.
  - destruct again as [|[now' data'] again]; [done|].
    cbn [map snd] in Hsame. injection Hsame as -> Hsame.
    cbn [forallb snd] in Htimed. apply andb_true_iff in Htimed as [Hd Hrest].
    cbn [length] in Hlen.
    destruct (processEntry_extends rt now data st) as (pre1 & H1 & Hp); [lia|].
    pose proof (settled_after rt now data st Hd) as Hafter.
    pose proof (threw_state rt now data st) as Hthrew.
    rewrite (processDataBatch_cons rt now data inputs st).
    destruct (Dashboard2.processEntry rt now data st) as [st1 outcome] eqn:E1.
    cbn [fst snd] in *.
    assert (Hlen' : (length (Dashboard2.activityHistory st1)
                     + length inputs ≤ 50)%nat).
    { rewrite H1, length_app. lia. }
    assert (Hgo : outcome ≠ Threw →
                  (Dashboard2.processDataBatch rt ((now', data) :: again)
                     (Dashboard2.processDataBatch rt inputs st1).1).1
                  = (Dashboard2.processDataBatch rt inputs st1).1).
    { intros Hok.
      destruct (processDataBatch_extends rt inputs st1 Hlen') as (pre & Hpre).
      rewrite processDataBatch_cons.
      rewrite (settled_noop rt now' data _ Hd).
      - by apply IH.
      - rewrite Hpre. apply settled_extends. by apply Hafter. }
    destruct outcome; [by apply Hgo | by apply Hgo |].
    injection (Hthrew eq_refl) as ->. cbn [fst].
    rewrite processDataBatch_cons.
    by rewrite (timed_any_instant rt now now' data st Hd), E1.
Qed.

(** X13. [processEntry] is idempotent on an entry whose timestamp is a
    number or a string that makes a valid date: processing the same data
    a second time, at any later instant, changes nothing; the second call
    ignores the entry, or raises again if the first one did. *)
Theorem processEntry_idempotent rt now now' data st :
  timed rt data = true →
  Dashboard2.processEntry rt now' data
    (Dashboard2.processEntry rt now data st).1
  = ((Dashboard2.processEntry rt now data st).1,
     match (Dashboard2.processEntry rt now data st).2 with
     | Threw => Threw
     | _ => Ignored
     end).
Proof.
  intros Ht.
  pose proof (settled_after rt now data st Ht) as Hafter.
  pose proof (threw_state rt now data st) as Hthrew.
  destruct (Dashboard2.processEntry rt now data st) as [st1 outcome] eqn:E1.
  cbn [fst snd] in *.
  destruct outcome; try (apply settled_noop; [done|]; by apply Hafter).
  injection (Hthrew eq_refl) as ->.
  by rewrite (timed_any_instant rt now now' data st Ht), E1.
Qed.

Lemma processEntry_idempotent_witness :
  Dashboard2.processEntry utcRuntime 1710000003900 aliceInFetched
    (Dashboard2.processEntry utcRuntime 1710000000900 aliceInFetched
       Dashboard2.STATE_init).1
  = ((Dashboard2.processEntry utcRuntime 1710000000900 aliceInFetched
        Dashboard2.STATE_init).1, Ignored).
Proof.
  apply (processEntry_idempotent utcRuntime 1710000000900 1710000003900
           aliceInFetched Dashboard2.STATE_init).
  reflexivity.
Defined.

(** X14. Polling is idempotent while nothing is evicted: when the entries
    of a poll all carry timestamps that make valid dates, and the history
    has room for them (its length plus theirs is at most 50), a second
    poll that brings the same entries again, at any later instants,
    leaves the history and the active sessions exactly as the first poll
    left them. *)
Theorem repoll_idempotent rt inputs again st :
  forallb (λ i, timed rt i.2) inputs = true →
  (length (Dashboard2.activityHistory st) + length inputs ≤ 50)%nat →
  map snd again = map snd inputs →
  Dashboard2.run rt [again] (Dashboard2.run rt [inputs] st)
  = Dashboard2.run rt [inputs] st.
Proof.
  intros Htimed Hlen Hsame. cbn [Dashboard2.run].
  by apply repoll_general.
Qed.

Lemma repoll_idempotent_witness :
  Dashboard2.run utcRuntime
    [map (λ i, (i.1 + 3000, i.2)) (everySecondFetched 5)]
    (Dashboard2.run utcRuntime [everySecondFetched 5] aliceInShown)
  = Dashboard2.run utcRuntime [everySecondFetched 5] aliceInShown.
Proof.
  apply (repoll_idempotent utcRuntime (everySecondFetched 5)
           (map (λ i, (i.1 + 3000, i.2)) (everySecondFetched 5))
           aliceInShown).
  - vm_compute. reflexivity.
  - vm_compute. lia.
  - reflexivity.
Defined.

(** ** The time display *)

(** X15. [formatDuration] on a whole number of milliseconds.  Below one
    minute it shows the whole seconds; from one minute to one hour the
    whole minutes (1 to 59) and the remaining seconds (0 to 59); from one
    hour on the whole hours and the remaining minutes (0 to 59), without
    seconds.  A negative duration (a session that starts in the future) is
    shown as a negative number of seconds, however long; NaN is shown as
    'NaNs'.  The durations are those below 2^53 ms in size, which the
    divisions of the code are exact on. *)
Theorem formatDuration_forms :
  (∀ ms, 0 ≤ ms < 60000 →
         formatDuration (Finite ms) = showZ (ms / 1000) +:+ "s")
  ∧ (∀ ms, 60000 ≤ ms < 3600000 →
           formatDuration (Finite ms)
           = showZ (ms / 60000) +:+ "m " +:+ showZ ((ms / 1000) mod 60) +:+ "s"
           ∧ 1 ≤ ms / 60000 < 60
           ∧ 0 ≤ (ms / 1000) mod 60 < 60)
  ∧ (∀ ms, 3600000 ≤ ms < 2 ^ 53 →
           formatDuration (Finite ms)
           = showZ (ms / 3600000) +:+ "h " +:+ showZ ((ms / 60000) mod 60)
             +:+ "m"
           ∧ 1 ≤ ms / 3600000
           ∧ 0 ≤ (ms / 60000) mod 60 < 60)
  ∧ (∀ ms, - 2 ^ 53 < ms < 0 →
           formatDuration (Finite ms) = showZ (ms / 1000) +:+ "s"
           ∧ ms / 1000 ≤ -1)
  ∧ formatDuration NaN = "NaNs".
Proof.
  assert (Hmin : ∀ ms, ms / 1000 / 60 = ms / 60000)
    by (intros; by rewrite Z.div_div by lia).
  assert (Hhour : ∀ ms, ms / 1000 / 60 / 60 = ms / 3600000)
    by (intros; by rewrite !Z.div_div by lia).
  repeat apply conj; [| | | |done].
  - intros ms H. unfold formatDuration. cbv zeta. rewrite Hhour, Hmin.
    rewrite (proj2 (Z.ltb_ge 0 (ms / 3600000))),
            (proj2 (Z.ltb_ge 0 (ms / 60000))); [done| |].
    + pose proof (Z.div_lt_upper_bound ms 60000 1). lia.
    + pose proof (Z.div_lt_upper_bound ms 3600000 1). lia.
  - intros ms H. unfold formatDuration. cbv zeta. rewrite Hhour, Hmin.
    pose proof (Z.div_lt_upper_bound ms 3600000 1).
    pose proof (Z.div_le_lower_bound ms 60000 1).
    pose proof (Z.div_lt_upper_bound ms 60000 60).
    pose proof (Z.mod_pos_bound (ms / 1000) 60).
    pose proof (Z.div_pos ms 1000).
    rewrite (proj2 (Z.ltb_ge 0 (ms / 3600000))) by lia.
    rewrite (proj2 (Z.ltb_lt 0 (ms / 60000))) by lia.
    rewrite Z.rem_mod_nonneg by lia. split; [done|lia].
  - intros ms H. unfold formatDuration. cbv zeta. rewrite Hhour, Hmin.
    pose proof (Z.div_le_lower_bound ms 3600000 1).
    pose proof (Z.mod_pos_bound (ms / 60000) 60).
    pose proof (Z.div_pos ms 60000).
    rewrite (proj2 (Z.ltb_lt 0 (ms / 3600000))) by lia.
    rewrite Z.rem_mod_nonneg by lia. split; [done|lia].
  - intros ms H. unfold formatDuration. cbv zeta. rewrite Hhour, Hmin.
    pose proof (Z.div_lt_upper_bound ms 1000 0).
    pose proof (Z.div_lt_upper_bound ms 60000 0).
    pose proof (Z.div_lt_upper_bound ms 3600000 0).
    rewrite (proj2 (Z.ltb_ge 0 (ms / 3600000))) by lia.
    rewrite (proj2 (Z.ltb_ge 0 (ms / 60000))) by lia.
    split; [done|lia].
Qed.

Lemma formatDuration_forms_witness :
  formatDuration (Finite 5025000) = "1h 23m"
  ∧ formatDuration (Finite 83500) = "1m 23s"
  ∧ formatDuration (Finite (-7200000)) = "-7200s".
Proof.
  split; [|split].
  - rewrite (proj1 (proj1 (proj2 (proj2 formatDuration_forms)) 5025000
                      ltac:(lia))).
    reflexivity.
  - rewrite (proj1 (proj1 (proj2 formatDuration_forms) 83500 ltac:(lia))).
    reflexivity.
  - rewrite (proj1 (proj1 (proj2 (proj2 (proj2 formatDuration_forms)))
                      (-7200000) ltac:(lia))).
    reflexivity.
Defined.

(** ** The Pi status bit *)

Lemma is_bit_spec (status : JsValue) :
  PiStatus.is_bit status = true
  ↔ status = JNum (Finite 0) ∨ status = JNum (Finite 1).
Proof.
  unfold PiStatus.is_bit. rewrite orb_true_iff. split.
  - intros [H|H]; apply strict_eq_eq in H; auto.
  - intros [->| ->]; [left|right]; done.
Qed.

Lemma PiStatus_run_last bodies piStatus :
  PiStatus.run bodies piStatus
  = default piStatus (last (List.filter PiStatus.is_bit bodies)).
Proof.
  revert piStatus. induction bodies as [|status bodies IH]; intros piStatus;
    [done|].
  cbn [PiStatus.run List.filter]. unfold PiStatus.post_pi_status.
  destruct (PiStatus.is_bit status) eqn:E; cbn [fst]; rewrite IH; [|done].
  destruct (List.filter PiStatus.is_bit bodies) as [|x l]; [done|].
  rewrite last_cons_cons.
  destruct (last (x :: l)) as [y|] eqn:El; [done|].
  by apply last_None in El.
Qed.

Lemma piStatus_bit bodies :
  let piStatus := PiStatus.run bodies PiStatus.piStatus_init in
  (piStatus = JNum (Finite 0) ∨ piStatus = JNum (Finite 1))
  ∧ piStatus
    = default (JNum (Finite 0)) (last (List.filter PiStatus.is_bit bodies)).
Proof.
  intros piStatus. unfold piStatus. rewrite PiStatus_run_last.
  split; [|done].
  destruct (last (List.filter PiStatus.is_bit bodies)) as [x|] eqn:E;
    [|by left].
  simpl. apply is_bit_spec.
  apply last_Some in E as [l' E].
  assert (Hx : In x (List.filter PiStatus.is_bit bodies)).
  { rewrite E. apply in_app_iff. right. by left. }
  by apply filter_In in Hx as [_ Hx].
Qed.

(** X16. Whatever bodies are posted to [/pi-status] from the start of the
    server, the bit stays the number 0 or the number 1, and what
    [GET /pi-status] returns is the last posted status that was 0 or 1 (0
    if there was none); a body with any other status (2, true, the string
    '1', null, nothing) is answered with the error and changes nothing. *)
Theorem piStatus_is_last_valid_bit bodies :
  let piStatus := PiStatus.run bodies PiStatus.piStatus_init in
  (piStatus = JNum (Finite 0) ∨ piStatus = JNum (Finite 1))
  ∧ PiStatus.get_pi_status piStatus
    = default (JNum (Finite 0)) (last (List.filter PiStatus.is_bit bodies))
  ∧ (∀ status,
        status ≠ JNum (Finite 0) → status ≠ JNum (Finite 1) →
        PiStatus.post_pi_status status piStatus
        = (piStatus, PiStatus.BadRequest400 "status must be 0 or 1")).
Proof.
  intros piStatus. destruct (piStatus_bit bodies) as [Hbit Hlast].
  fold piStatus in Hbit, Hlast.
  split; [done|]. split; [done|].
  intros status H0 H1. unfold PiStatus.post_pi_status.
  destruct (PiStatus.is_bit status) eqn:E; [|done].
  apply is_bit_spec in E as [?|?]; done.
Qed.

Lemma piStatus_is_last_valid_bit_witness :
  PiStatus.post_pi_status (JStr "1")
    (PiStatus.run [JNum (Finite 1); JNum (Finite 2)] PiStatus.piStatus_init)
  = (PiStatus.run [JNum (Finite 1); JNum (Finite 2)] PiStatus.piStatus_init,
     PiStatus.BadRequest400 "status must be 0 or 1").
Proof.
  apply (proj2 (proj2 (piStatus_is_last_valid_bit
                         [JNum (Finite 1); JNum (Finite 2)])) (JStr "1"));
    discriminate.
Defined.

(** X17. [setPiStatus] from the dashboard.  With the server reachable and
    the value 0 or 1, the server's bit becomes that value and the display
    shows its digit, which is also what a later [fetchPiStatus] shows; with
    any other value (NaN from a button without a number included), or with
    the server unreachable, the bit and the display stay as they were.  A
    fetch that succeeds never shows 'Unknown'. *)
Theorem setPiStatus_end_to_end bodies display :
  let piStatus := PiStatus.run bodies PiStatus.piStatus_init in
  (∀ z, z = 0 ∨ z = 1 →
        PiStatus.setPiStatus (Finite z) true piStatus display
        = (JNum (Finite z), PiStatus.fetchPiStatus true (JNum (Finite z)))
        ∧ PiStatus.textContent (PiStatus.fetchPiStatus true (JNum (Finite z)))
          = showZ z)
  ∧ (∀ value,
        value ≠ Finite 0 → value ≠ Finite 1 →
        PiStatus.setPiStatus value true piStatus display
        = (piStatus, display))
  ∧ (∀ value,
        PiStatus.setPiStatus value false piStatus display
        = (piStatus, display))
  ∧ (PiStatus.textContent (PiStatus.fetchPiStatus true piStatus) = "0"
     ∨ PiStatus.textContent (PiStatus.fetchPiStatus true piStatus) = "1")
  ∧ PiStatus.textContent (PiStatus.fetchPiStatus false piStatus) = "Unknown".
Proof.
  intros piStatus.
  split; [|split; [|split; [done|split; [|done]]]].
  - by intros z [-> | ->].
  - intros value H0 H1. unfold PiStatus.setPiStatus, PiStatus.post_pi_status.
    destruct (PiStatus.is_bit (PiStatus.viaJSON value)) eqn:E; [|done].
    apply is_bit_spec in E. destruct value as [z| |]; simpl in E.
    + destruct E as [[= ->] | [= ->]]; done.
    + destruct E; done.
    + destruct E; done.
  - destruct (proj1 (piStatus_bit bodies)) as [H | H];
      fold piStatus in H; rewrite H; [by left | by right].
Qed.

Lemma setPiStatus_end_to_end_witness :
  PiStatus.setPiStatus (Finite 1) true
    (PiStatus.run [JNum (Finite 2)] PiStatus.piStatus_init)
    (PiStatus.fetchPiStatus false PiStatus.piStatus_init)
  = (JNum (Finite 1), PiStatus.fetchPiStatus true (JNum (Finite 1)))
  ∧ PiStatus.textContent (PiStatus.fetchPiStatus true (JNum (Finite 1)))
    = showZ 1.
Proof.
  apply (proj1 (setPiStatus_end_to_end [JNum (Finite 2)]
                  (PiStatus.fetchPiStatus false PiStatus.piStatus_init)) 1).
  right. reflexivity.
Defined.

(** ** The monitoring switch *)

Lemma Monitor3_step_consistent m e :
  consistent (Monitor3.isMonitoring m) (Monitor3.updateInterval m)
             (Monitor3.intervals m) →
  consistent (Monitor3.isMonitoring (Monitor3.step m e))
             (Monitor3.updateInterval (Monitor3.step m e))
             (Monitor3.intervals (Monitor3.step m e)).
Proof.
  unfold consistent. destruct e as [|trimmed]; [|done].
  unfold Monitor3.step, Monitor3.toggleMonitoring.
  destruct (Monitor3.updateInterval m) as [timer|] eqn:E;
    intros [Hm Hi]; rewrite Hm.
  - unfold Monitor3.stopMonitoring. simpl. rewrite E, Hi.
    split; [done|apply difference_diag_L].
  - unfold Monitor3.startMonitoring.
    destruct (String.eqb (Monitor3.deviceIP m) EmptyString); simpl.
    + by rewrite E.
    + split; [done|]. rewrite Hi. apply union_empty_r_L.
Qed.

(** X18. On the device dashboard, after any sequence of clicks on the
    monitoring button and saves of the configuration, monitoring is on
    exactly when one polling interval is set, and never more than one is
    set; a click while no device address is configured starts nothing. *)
Theorem Monitor3_one_interval events :
  let m := Monitor3.run events Monitor3.Monitor_init in
  consistent (Monitor3.isMonitoring m) (Monitor3.updateInterval m)
             (Monitor3.intervals m)
  ∧ (size (Monitor3.intervals m) ≤ 1)%nat
  ∧ (Monitor3.deviceIP m = EmptyString →
     Monitor3.isMonitoring m = false →
     Monitor3.step m Monitor3.Click = m).
Proof.
  intros m.
  assert (Hc : consistent (Monitor3.isMonitoring m) (Monitor3.updateInterval m)
                 (Monitor3.intervals m)).
  { assert (Hgen : ∀ m0,
      consistent (Monitor3.isMonitoring m0) (Monitor3.updateInterval m0)
                 (Monitor3.intervals m0) →
      consistent (Monitor3.isMonitoring (Monitor3.run events m0))
                 (Monitor3.updateInterval (Monitor3.run events m0))
                 (Monitor3.intervals (Monitor3.run events m0))).
    { induction events as [|e events IH]; intros m0 H0; [done|].
      simpl. apply IH. by apply Monitor3_step_consistent. }
    by apply Hgen. }
  split; [done|]. split.
  - unfold consistent in Hc.
    destruct (Monitor3.updateInterval m); destruct Hc as [_ ->].
    + by rewrite size_singleton.
    + rewrite size_empty. lia.
  - intros Hip Hoff. unfold Monitor3.step, Monitor3.toggleMonitoring,
      Monitor3.startMonitoring. by rewrite Hoff, Hip.
Qed.

Lemma Monitor3_one_interval_witness :
  Monitor3.step (Monitor3.run [Monitor3.Save "192.168.1.20"; Monitor3.Click;
                               Monitor3.Save EmptyString; Monitor3.Click]
                   Monitor3.Monitor_init) Monitor3.Click
  = Monitor3.run [Monitor3.Save "192.168.1.20"; Monitor3.Click;
                  Monitor3.Save EmptyString; Monitor3.Click]
      Monitor3.Monitor_init.
Proof.
  apply (proj2 (proj2 (Monitor3_one_interval
                         [Monitor3.Save "192.168.1.20"; Monitor3.Click;
                          Monitor3.Save EmptyString; Monitor3.Click])));
    reflexivity.
Defined.

Lemma Monitor2_step_timersBelow m e :
  timersBelow m → timersBelow (Monitor2.step m e).
Proof.
  intros [Hi Hu].
  assert (Hstart : ∀ m', timersBelow m' → timersBelow (Monitor2.startMonitoring m')).
  { intros m' [Hi' Hu']. split; simpl.
    - intros timer [->%elem_of_singleton | H]%elem_of_union; [lia|].
      specialize (Hi' _ H). lia.
    - intros timer [= <-]. lia. }
  assert (Hstop : ∀ m', timersBelow m' → timersBelow (Monitor2.stopMonitoring m')).
  { intros m' [Hi' Hu']. split; simpl; [|done].
    intros timer H. apply Hi'.
    destruct (Monitor2.updateInterval m');
      [by apply elem_of_difference in H as [H _] | done]. }
  destruct e; simpl.
  - unfold Monitor2.toggleMonitoring.
    destruct (Monitor2.isMonitoring m); [by apply Hstop | by apply Hstart].
  - unfold Monitor2.saveConfiguration.
    destruct (Monitor2.isMonitoring m); [|done].
    destruct (Hstop m) as [H1 H2]; [done|]. by split.
  - unfold Monitor2.timeout. destruct (Monitor2.pendingStarts m); [done|].
    by apply Hstart.
Qed.

Lemma Monitor2_run_timersBelow events m :
  timersBelow m → timersBelow (Monitor2.run events m).
Proof.
  revert m. induction events as [|e events IH]; intros m Hm; [done|].
  simpl. apply IH. by apply Monitor2_step_timersBelow.
Qed.

(** X19. On the server dashboard the clicks and the saves keep the switch
    and the timers in agreement (monitoring on exactly when the one
    interval named by [updateInterval] is set), and so does a scheduled
    start that fires while monitoring is off. *)
Theorem Monitor2_step_consistent m e :
  consistent (Monitor2.isMonitoring m) (Monitor2.updateInterval m)
             (Monitor2.intervals m) →
  (e = Monitor2.Timeout → Monitor2.isMonitoring m = false) →
  consistent (Monitor2.isMonitoring (Monitor2.step m e))
             (Monitor2.updateInterval (Monitor2.step m e))
             (Monitor2.intervals (Monitor2.step m e)).
Proof.
  unfold consistent. intros Hc Hoff.
  destruct (Monitor2.updateInterval m) as [timer|] eqn:E;
    destruct Hc as [Hm Hi].
  - destruct e; simpl.
    + unfold Monitor2.toggleMonitoring, Monitor2.stopMonitoring.
      rewrite Hm. simpl. rewrite E, Hi. split; [done|apply difference_diag_L].
    + unfold Monitor2.saveConfiguration, Monitor2.stopMonitoring.
      rewrite Hm. simpl. rewrite E, Hi. split; [done|apply difference_diag_L].
    + rewrite Hoff in Hm; done.
  - destruct e; simpl.
    + unfold Monitor2.toggleMonitoring. rewrite Hm. simpl.
      split; [done|]. rewrite Hi. apply union_empty_r_L.
    + unfold Monitor2.saveConfiguration. rewrite Hm. by rewrite E.
    + unfold Monitor2.timeout. destruct (Monitor2.pendingStarts m); simpl.
      * by rewrite E.
      * split; [done|]. rewrite Hi. apply union_empty_r_L.
Qed.

Lemma Monitor2_step_consistent_witness :
  consistent
    (Monitor2.isMonitoring (Monitor2.step Monitor2.Monitor_init Monitor2.Timeout))
    (Monitor2.updateInterval (Monitor2.step Monitor2.Monitor_init Monitor2.Timeout))
    (Monitor2.intervals (Monitor2.step Monitor2.Monitor_init Monitor2.Timeout)).
Proof.
  apply (Monitor2_step_consistent Monitor2.Monitor_init Monitor2.Timeout).
  - split; reflexivity.
  - reflexivity.
Defined.

(** X20. On the server dashboard a scheduled start that fires while
    monitoring is already on (the button was clicked before the delayed
    start of [init] or of [saveConfiguration] came) sets a second interval
    and forgets the first: the first interval is still set after any
    further clicks, saves and scheduled starts, also while monitoring is
    shown as off. *)
Theorem Monitor2_forgotten_interval before after timer :
  let m := Monitor2.run before Monitor2.Monitor_init in
  Monitor2.isMonitoring m = true →
  Monitor2.updateInterval m = Some timer →
  timer ∈ Monitor2.intervals m →
  Monitor2.pendingStarts m ≠ 0%nat →
  timer ∈ Monitor2.intervals
            (Monitor2.run after (Monitor2.step m Monitor2.Timeout))
  ∧ Monitor2.updateInterval
      (Monitor2.run after (Monitor2.step m Monitor2.Timeout)) ≠ Some timer.
Proof.
  intros m Hon Hu Hin Hpending.
  assert (Hbelow : timersBelow m).
  { apply Monitor2_run_timersBelow. split; [set_solver|done]. }
  set (kept := λ m' : Monitor2.Monitor,
         timer ∈ Monitor2.intervals m'
         ∧ Monitor2.updateInterval m' ≠ Some timer
         ∧ (timer < Monitor2.nextTimer m')%positive).
  assert (Hstart : ∀ m', timer ∈ Monitor2.intervals m' →
                         (timer < Monitor2.nextTimer m')%positive →
                         kept (Monitor2.startMonitoring m')).
  { intros m' H1 H2. repeat split; simpl; [set_solver| |lia].
    intros [= E]. lia. }
  assert (Hstop : ∀ m', kept m' → kept (Monitor2.stopMonitoring m')).
  { intros m' (H1 & H2 & H3). repeat split; simpl; [|done|done].
    destruct (Monitor2.updateInterval m') as [t|]; [|done].
    apply elem_of_difference. split; [done|].
    intros ->%elem_of_singleton. done. }
  assert (Hstep : ∀ m' e, kept m' → kept (Monitor2.step m' e)).
  { intros m' e Hk. pose proof Hk as (H1 & H2 & H3). destruct e; simpl.
    - unfold Monitor2.toggleMonitoring.
      destruct (Monitor2.isMonitoring m'); [by apply Hstop | by apply Hstart].
    - unfold Monitor2.saveConfiguration.
      destruct (Monitor2.isMonitoring m'); [|done].
      destruct (Hstop m' Hk) as (K1 & K2 & K3). by repeat split.
    - unfold Monitor2.timeout. destruct (Monitor2.pendingStarts m'); [done|].
      by apply Hstart. }
  assert (Hfirst : kept (Monitor2.step m Monitor2.Timeout)).
  { simpl. unfold Monitor2.timeout.
    destruct (Monitor2.pendingStarts m); [done|].
    apply Hstart; simpl; [done|]. by apply Hbelow. }
  assert (Hrun : ∀ m', kept m' → kept (Monitor2.run after m')).
  { induction after as [|e after IH]; intros m' Hk; [done|].
    simpl. apply IH. by apply Hstep. }
  destruct (Hrun _ Hfirst) as (H1 & H2 & _). by split.
Qed.

Lemma Monitor2_forgotten_interval_witness :
  (1%positive)
  ∈ Monitor2.intervals
      (Monitor2.run [Monitor2.Click]
         (Monitor2.step (Monitor2.run [Monitor2.Click] Monitor2.Monitor_init)
            Monitor2.Timeout))
  ∧ Monitor2.updateInterval
      (Monitor2.run [Monitor2.Click]
         (Monitor2.step (Monitor2.run [Monitor2.Click] Monitor2.Monitor_init)
            Monitor2.Timeout)) ≠ Some 1%positive.
Proof.
  apply (Monitor2_forgotten_interval [Monitor2.Click] [Monitor2.Click]
           1%positive);
    [reflexivity | reflexivity | vm_compute; set_solver | discriminate].
Defined.

(** ** The calls that raise *)

(** X21. The server answers [POST /fingerprint-data] with the error 500
    exactly when the record passes the validation and its name cannot be
    converted to a string for the log line; the entry is then already in
    the store. *)
Theorem Server_error_after_store rt now data latestData :
  ((Server.post_fingerprint_data rt now data latestData).2
   = Server.ServerError500
   ↔ Server.accepted data = true
     ∧ printable rt (Server.data_name data) = false)
  ∧ ((Server.post_fingerprint_data rt now data latestData).2
     = Server.ServerError500 →
     (Server.post_fingerprint_data rt now data latestData).1
     = firstn Server.MAX_HISTORY
         (Server.entry_of rt (now, data) :: latestData)).
Proof.
  destruct (Server.accepted data) eqn:E.
  - rewrite post_accepted by done. cbn [fst snd]. split; [|done].
    destruct (printable rt (Server.data_name data)); split; try done.
    by intros [_ ?].
  - destruct (post_rejected rt now data latestData E) as [error ->].
    split; [|done]. split; [done | by intros [? _]].
Qed.

Lemma Server_error_after_store_witness :
  (Server.post_fingerprint_data utcRuntime 1710000001234
     {| Server.data_name := JObj 1; Server.data_action := JStr "in";
        Server.data_timestamp := JNum (Finite 1710000000) |} []).2
  = Server.ServerError500
  ∧ length (Server.post_fingerprint_data utcRuntime 1710000001234
              {| Server.data_name := JObj 1; Server.data_action := JStr "in";
                 Server.data_timestamp := JNum (Finite 1710000000) |} []).1
    = 1%nat.
Proof.
  split.
  - apply (proj2 (proj1 (Server_error_after_store utcRuntime 1710000001234
                           {| Server.data_name := JObj 1;
                              Server.data_action := JStr "in";
                              Server.data_timestamp :=
                                JNum (Finite 1710000000) |} []))).
    split; reflexivity.
  - rewrite (proj2 (Server_error_after_store utcRuntime 1710000001234
                      {| Server.data_name := JObj 1;
                         Server.data_action := JStr "in";
                         Server.data_timestamp :=
                           JNum (Finite 1710000000) |} []) eq_refl).
    reflexivity.
Defined.

(** X22. On the server dashboard an entry that is valid and no duplicate,
    but whose name or action cannot be converted to a string for the id,
    makes [processEntry] raise before any write; the poll ends there: the
    entries after it in the batch are not processed, and the state is the
    one the entries before it left.  The next poll starts from that
    state. *)
Theorem processDataBatch_stops_at_throw rt now data rest polls st :
  Dashboard2.fresh rt now data st = true →
  printable rt (Dashboard2.data_name data)
  && printable rt (Dashboard2.data_action data) = false →
  Dashboard2.processEntry rt now data st = (st, Threw)
  ∧ Dashboard2.processDataBatch rt ((now, data) :: rest) st = (st, Threw)
  ∧ Dashboard2.run rt (((now, data) :: rest) :: polls) st
    = Dashboard2.run rt polls st.
Proof.
  intros Hfresh Hprint.
  assert (Hstep : Dashboard2.processEntry rt now data st = (st, Threw)).
  { unfold Dashboard2.fresh in Hfresh.
    apply andb_true_iff in Hfresh as [Hvalid Hdup%negb_true_iff].
    rewrite processEntry_cases. unfold Dashboard2_valid.
    by rewrite Hvalid, Hdup, Hprint. }
  split; [done|].
  assert (Hbatch : Dashboard2.processDataBatch rt ((now, data) :: rest) st
                   = (st, Threw))
    by (by rewrite processDataBatch_cons, Hstep).
  split; [done|]. cbn [Dashboard2.run]. by rewrite Hbatch.
Qed.

Lemma processDataBatch_stops_at_throw_witness :
  Dashboard2.processDataBatch utcRuntime
    ((1710000009900,
      {| Dashboard2.data_name := JObj 1;
         Dashboard2.data_action := JStr "in";
         Dashboard2.data_timestamp := JNum (Finite 1710000009000) |})
     :: everySecondFetched 3) aliceInShown
  = (aliceInShown, Threw).
Proof.
  apply (processDataBatch_stops_at_throw utcRuntime 1710000009900
           {| Dashboard2.data_name := JObj 1;
              Dashboard2.data_action := JStr "in";
              Dashboard2.data_timestamp := JNum (Finite 1710000009000) |}
           (everySecondFetched 3) [] aliceInShown);
    reflexivity.
Defined.


